(** * Goto demo: worker routes, frontend API helper and the integration
      guide's client templates

    A shallow embedding of the TypeScript worker (Hono routes), of the
    frontend services module ([request], [api]) and of the two JavaScript
    templates of the integration guide ([makeRequest], [streamChat]),
    together with the properties the written specification states about
    them. *)

From Stdlib Require Import ZArith QArith Bool List Ascii String Lia.
From stdpp Require Import base option list strings gmap pretty.

Local Open Scope Z_scope.
Local Set Warnings "-register-all".

(** ** JavaScript values that cross the wire *)

(** A JSON document as [JSON.parse] and [Response.json] give it: the
    fields of an object are kept in source order. *)
Inductive json : Type :=
| JNull
| JBool (b : bool)
| JNumber (q : Q)
| JString (s : string)
| JArray (items : list json)
| JObject (fields : list (string * json)).

(** What a [throw] carries, or what a rejected promise is rejected with:
    an [Error] of some class, with its message. *)
Inductive js_error : Type :=
| TypeError (message : string)
| SyntaxError (message : string)
| Error (message : string)
| ApiError (status : Z) (message : string).

(** [error.message]. *)
Definition message_of (e : js_error) : string :=
  match e with
  | TypeError m | SyntaxError m | Error m | ApiError _ m => m
  end.

(** [!!v]: the falsy JSON values are [null], [false], [0] and [""]. *)
Definition truthy (v : json) : bool :=
  match v with
  | JNull => false
  | JBool b => b
  | JNumber q => negb (Qeq_bool q 0)
  | JString s => negb (String.eqb s "")
  | JArray _ | JObject _ => true
  end.

(** Association lookup, first binding first. *)
Fixpoint assoc {A : Type} (k : string) (l : list (string * A)) : option A :=
  match l with
  | [] => None
  | (k', v) :: l' => if String.eqb k k' then Some v else assoc k l'
  end.

(** [v.k] on a parsed document: [undefined] ([None]) on anything that is
    not an object holding [k], and a [TypeError] on [null]. *)
Definition get_prop (v : json) (k : string) : js_error + option json :=
  match v with
  | JNull => inl (TypeError "Cannot read properties of null")
  | JObject fields => inr (assoc k fields)
  | _ => inr None
  end.

(** [a || b] with [a] possibly [undefined]. *)
Definition or_else (a : option json) (b : json) : json :=
  match a with
  | Some v => if truthy v then v else b
  | None => b
  end.

(** [s.slice(n)] for a string. *)
Fixpoint slice (n : nat) (s : string) : string :=
  match n, s with
  | O, _ => s
  | S n', String _ s' => slice n' s'
  | S _, EmptyString => EmptyString
  end.

(** A [fetch] response: the status line and what reading the body gives
    ([text()] and [json()] may each reject). [ok] is the Fetch standard's
    200..299 test. *)
Record Response : Type := mkResponse {
  status : Z;
  text : js_error + string;
  json_body : js_error + json
}.

Definition ok (r : Response) : bool :=
  (200 <=? status r) && (status r <=? 299).

(** One call of [fetch]: it rejects on a connection-level failure, and
    resolves with a response otherwise, whatever the status. *)
Inductive fetch_outcome : Type :=
| NetworkFailure (e : js_error)
| Responded (r : Response).

(** A [File] of the browser or of the worker runtime: its name, its
    media type (the empty string when unknown) and its bytes. *)
Record File : Type := mkFile {
  file_name : string;
  file_type : string;
  file_bytes : list Byte.byte
}.

(** An entry of a [FormData] is a [File] or a string; [append] keeps the
    order of the calls and never replaces an entry. *)
Inductive FormDataEntryValue : Type :=
| FFile (f : File)
| FString (s : string).

Definition FormData : Type := list (string * FormDataEntryValue).

(** [formData.append(name, value)] for a value that may be [undefined]: a
    [File] is stored as it is, anything else as its string conversion. *)
Definition append (formData : FormData) (name : string) (value : option File) : FormData :=
  formData ++ [(name, match value with
                      | Some f => FFile f
                      | None => FString "undefined"
                      end)].

Definition append_string (formData : FormData) (name value : string) : FormData :=
  formData ++ [(name, FString value)].

(** [formData.get(name)]: the first entry of that name, or [null]. *)
Definition get (formData : FormData) (name : string) : option FormDataEntryValue :=
  assoc name formData.

(** How an awaited call ends. *)
Inductive outcome (A : Type) : Type :=
| Resolved (v : A)
| Rejected (e : js_error).
Arguments Resolved {A} v.
Arguments Rejected {A} e.

(** ** The frontend services module: [request] and [api] *)

Module Frontend.

Definition API_BASE : string := "/api".

Inductive BodyInit : Type :=
| BodyText (s : string)
| BodyForm (formData : FormData).

(** A property of an object literal: the key is absent, or present with a
    value that may be [undefined]. *)
Inductive property (A : Type) : Type :=
| Absent
| Present (v : option A).
Arguments Absent {A}.
Arguments Present {A} v.

(** The keys of [RequestInit] these modules set or read; [headers] is a
    plain record of header names. *)
Record RequestInit : Type := mkInit {
  init_method : property string;
  init_headers : property (gmap string string);
  init_body : property BodyInit
}.

(** One key of [{ ...a, ...b }]: the later object wins where it has the key. *)
Definition spread_property {A : Type} (a b : property A) : property A :=
  match b with
  | Absent => a
  | Present v => Present v
  end.

(** [{ ...a, ...options }] with [options] possibly [undefined]. *)
Definition spread_init (a : RequestInit) (options : option RequestInit) : RequestInit :=
  match options with
  | None => a
  | Some b =>
      {| init_method := spread_property (init_method a) (init_method b);
         init_headers := spread_property (init_headers a) (init_headers b);
         init_body := spread_property (init_body a) (init_body b) |}
  end.

(** [options?.headers]. *)
Definition options_headers (options : option RequestInit) : option (gmap string string) :=
  match options with
  | None => None
  | Some o =>
      match init_headers o with
      | Absent => None
      | Present v => v
      end
  end.

(** [{ "Content-Type": "application/json", ...h }] with [h] possibly
    [undefined]: the entries of [h] win. *)
Definition merged_headers (h : option (gmap string string)) : gmap string string :=
  match h with
  | None => {[ "Content-Type" := "application/json" ]}
  | Some h => h ∪ {[ "Content-Type" := "application/json" ]}
  end.

(** The two arguments [request] gives to [fetch]. *)
Definition request_call (endpoint : string) (options : option RequestInit)
    : string * RequestInit :=
  (API_BASE +:+ endpoint,
   spread_init
     {| init_method := Absent;
        init_headers := Present (Some (merged_headers (options_headers options)));
        init_body := Absent |}
     options).

(** The headers of a dispatched call: none when the key is absent or
    [undefined]. *)
Definition dispatched_headers (call : string * RequestInit) : gmap string string :=
  match init_headers call.2 with
  | Present (Some h) => h
  | _ => ∅
  end.

Section WithFetch.
(** The network: what [fetch] does with a URL and an init object. *)
Variable fetch : string -> RequestInit -> fetch_outcome.

Definition request (endpoint : string) (options : option RequestInit) : outcome json :=
  let (url, init) := request_call endpoint options in
  match fetch url init with
  | NetworkFailure e => Rejected e
  | Responded res =>
      if negb (ok res) then
        let message :=
          match text res with
          | inr s => s
          | inl _ => "API error: " +:+ pretty (status res)
          end in
        Rejected (ApiError (status res) message)
      else
        match json_body res with
        | inr v => Resolved v
        | inl e => Rejected e
        end
  end.

Definition main : outcome json := request "/" None.
Definition products : outcome json := request "/products/" None.
Definition discovery : outcome json := request "/discovery/" None.
Definition chat : outcome json := request "/chat/" None.

(** The form [analyzeImage] posts. *)
Definition analyzeImage_form (file : File) : FormData :=
  append [] "image" (Some file).

Definition analyzeImage_call (file : File) : string * RequestInit :=
  (API_BASE +:+ "/vision/analyze",
   {| init_method := Present (Some "POST");
      init_headers := Absent;
      init_body := Present (Some (BodyForm (analyzeImage_form file))) |}).

Definition analyzeImage (file : File) : outcome json :=
  let (url, init) := analyzeImage_call file in
  match fetch url init with
  | NetworkFailure e => Rejected e
  | Responded res =>
      if negb (ok res) then
        let message :=
          match text res with
          | inr s => s
          | inl _ => "API error: " +:+ pretty (status res)
          end in
        Rejected (ApiError (status res) message)
      else
        match json_body res with
        | inr v => Resolved v
        | inl e => Rejected e
        end
  end.

(** The form [generateImage] posts: [productImages[0]] is read without
    a test, [productImages[1]] is tested for truthiness first (a [File]
    is truthy, [undefined] is not). *)
Definition generateImage_form (userImage : File) (productImages : list File)
    (prompt : string) : FormData :=
  let formData := [] in
  let formData := append formData "userImage" (Some userImage) in
  let formData := append formData "productImage1" (productImages !! 0%nat) in
  let formData :=
    if bool_decide (is_Some (productImages !! 1%nat))
    then append formData "productImage2" (productImages !! 1%nat)
    else formData in
  append_string formData "prompt" prompt.

Definition generateImage_call (userImage : File) (productImages : list File)
    (prompt : string) : string * RequestInit :=
  (API_BASE +:+ "/nano-banana/generate",
   {| init_method := Present (Some "POST");
      init_headers := Absent;
      init_body := Present (Some (BodyForm (generateImage_form userImage productImages prompt))) |}).

Definition generateImage (userImage : File) (productImages : list File)
    (prompt : string) : outcome json :=
  let (url, init) := generateImage_call userImage productImages prompt in
  match fetch url init with
  | NetworkFailure e => Rejected e
  | Responded res =>
      if negb (ok res) then
        let message :=
          match text res with
          | inr s => s
          | inl _ => "API error: " +:+ pretty (status res)
          end in
        Rejected (ApiError (status res) message)
      else
        match json_body res with
        | inr v => Resolved v
        | inl e => Rejected e
        end
  end.
End WithFetch.

(** The calls of the [api] object that go through [request]. *)
Definition api_request_calls : list (string * RequestInit) :=
  [request_call "/" None; request_call "/products/" None;
   request_call "/discovery/" None; request_call "/chat/" None].

(** *** Sample servers and calls *)

(** A server that answers 404 with a plain-text body to every call. *)
Definition fetch_404 : string -> RequestInit -> fetch_outcome :=
  fun _ _ =>
    Responded {| status := 404;
                 text := inr "404 Not Found";
                 json_body := inl (SyntaxError "Unexpected token") |}.

(** A server whose body cannot be read, answering 503. *)
Definition fetch_503_unreadable : string -> RequestInit -> fetch_outcome :=
  fun _ _ =>
    Responded {| status := 503;
                 text := inl (TypeError "body stream already read");
                 json_body := inl (TypeError "body stream already read") |}.

(** A server that wants both credential headers: 200 with them, 401
    without. *)
Definition fetch_checking_credentials : string -> RequestInit -> fetch_outcome :=
  fun url init =>
    if bool_decide (is_Some (dispatched_headers (url, init) !! "x-api-key") /\
                    is_Some (dispatched_headers (url, init) !! "x-tenant-id"))
    then Responded {| status := 200;
                      text := inr "{}";
                      json_body := inr (JObject []) |}
    else Responded {| status := 401;
                      text := inr "No API key provided";
                      json_body := inl (SyntaxError "Unexpected token") |}.

(** Options that set one custom header. *)
Definition options_accept_only : RequestInit :=
  {| init_method := Present (Some "GET");
     init_headers := Present (Some {[ "Accept" := "application/json" ]});
     init_body := Absent |}.

(** The names of the parts of a form, in order. *)
Definition part_names (formData : FormData) : list string := formData.*1.

(** The call [App.tsx] makes: the selected file, once as the room and
    once as the only product image. *)
Definition selectedFile : File :=
  {| file_name := "room.jpg"; file_type := "image/jpeg"; file_bytes := [] |}.

End Frontend.

(** ** The guide's retry template: [makeRequest] *)

Module Retry.

(** The headers every template of the guide sends. *)
Definition guide_headers (API_KEY TENANT_ID : string) : gmap string string :=
  {[ "x-api-key" := API_KEY;
     "x-tenant-id" := TENANT_ID;
     "Content-Type" := "application/json" ]}.

(** What the loop does to the outside: calls of [fetch] and calls of
    [sleep], in program order. *)
Inductive event : Type :=
| EFetch (url : string) (headers : gmap string string) (body : json)
| ESleep (ms : Z).

(** What the [try] block throws: an error of the runtime (a rejected
    [fetch] or [json()], a property read on [null]), or [new Error(arg)]
    with the argument as it is given, before its conversion to a string. *)
Inductive thrown : Type :=
| Thrown (e : js_error)
| NewError (arg : json).

(** How a call of [makeRequest] ends: [return await response.json()],
    falling out of the [while] (the promise resolves with [undefined]), or
    a rethrown error. *)
Inductive completion : Type :=
| Return (v : json)
| ReturnUndefined
| Throw (e : thrown).

(** The fetch outcomes the run meets: [w n] answers the [n]-th call. *)
Definition World : Type := nat -> fetch_outcome.

Definition maxRetries : Z := 3.

(** How the [try] block of one iteration leaves. *)
Inductive try_exit : Type :=
| TryReturn (v : json)
| TryContinue
| TryThrow (e : thrown).

(** The [try] block, given what [fetch] did. *)
Definition try_block (o : fetch_outcome) : try_exit :=
  match o with
  | NetworkFailure e => TryThrow (Thrown e)
  | Responded response =>
      if negb (ok response) then
        if status response >=? 500 then TryContinue
        else if (status response =? 401) || (status response =? 403) then
          TryThrow (NewError (JString "Authentication failed"))
        else
          match json_body response with
          | inl e => TryThrow (Thrown e)
          | inr error =>
              match get_prop error "error" with
              | inl e => TryThrow (Thrown e)
              | inr m => TryThrow (NewError (or_else m (JString "Request failed")))
              end
          end
      else
        match json_body response with
        | inl e => TryThrow (Thrown e)
        | inr v => TryReturn v
        end
  end.

(** [Math.pow(2, attempt) * 1000]. *)
Definition backoff (attempt : Z) : Z := 2 ^ attempt * 1000.

Section MakeRequest.
Variables (BASE_URL API_KEY TENANT_ID : string).
Variables (endpoint : string) (body : json).

Definition the_fetch : event :=
  EFetch (BASE_URL +:+ endpoint) (guide_headers API_KEY TENANT_ID) body.

(** The [while (attempt < maxRetries)] loop. [calls] counts the calls of
    [fetch] made so far and [tr] is the trace so far. *)
Fixpoint loop (fuel : nat) (w : World) (attempt : Z) (calls : nat)
    (tr : list event) : option (completion * list event) :=
  match fuel with
  | O => None
  | S fuel' =>
      if attempt <? maxRetries then
        let tr := tr ++ [the_fetch] in
        match try_block (w calls) with
        | TryReturn v => Some (Return v, tr)
        | TryContinue =>
            let attempt := attempt + 1 in
            loop fuel' w attempt (S calls) (tr ++ [ESleep (backoff attempt)])
        | TryThrow error =>
            if attempt >=? maxRetries - 1 then Some (Throw error, tr)
            else
              let attempt := attempt + 1 in
              loop fuel' w attempt (S calls) (tr ++ [ESleep (backoff attempt)])
        end
      else Some (ReturnUndefined, tr)
  end.

Definition makeRequest (w : World) : option (completion * list event) :=
  loop 4 w 0 0 [].
End MakeRequest.

(** The delays of a trace, and its number of attempts. *)
Definition sleeps (tr : list event) : list Z :=
  omap (fun e => match e with ESleep ms => Some ms | _ => None end) tr.

Definition is_fetch (e : event) : bool :=
  match e with EFetch _ _ _ => true | ESleep _ => false end.

Definition attempts (tr : list event) : nat :=
  length (List.filter is_fetch tr).

(** For each attempt of a trace, in order, the delays slept since the
    attempt before it ([pending] collects them). *)
Fixpoint delays_since (pending : list Z) (tr : list event) : list (list Z) :=
  match tr with
  | [] => []
  | EFetch _ _ _ :: tr' => pending :: delays_since [] tr'
  | ESleep ms :: tr' => delays_since (pending ++ [ms]) tr'
  end.

Definition delays_before (tr : list event) : list (list Z) :=
  delays_since [] tr.

(** The schedule the template follows: nothing before the first attempt,
    [1000 * 2^(k-1)] before attempt [k >= 2]. *)
Definition delay_before_attempt (k : nat) : list Z :=
  if (k <=? 1)%nat then [] else [1000 * 2 ^ (Z.of_nat k - 1)].

(** The schedule the specification states, for a base delay. *)
Definition spec_delay_before_attempt (baseDelayMs : Z) (k : nat) : list Z :=
  if (k <=? 1)%nat then [] else [baseDelayMs * 2 ^ (Z.of_nat k - 2)].

(** A world whose first three calls of [fetch] reject. *)
Definition rejecting (e1 e2 e3 : js_error) (w : World) : World :=
  fun n =>
    match n with
    | 0%nat => NetworkFailure e1
    | 1%nat => NetworkFailure e2
    | 2%nat => NetworkFailure e3
    | _ => w n
    end.

(** A world that answers every call with the same status and body. *)
Definition always (st : Z) (b : json) : World :=
  fun _ => Responded (mkResponse st (inr "") (inr b)).

(** The guide's discovery request, in a given world. *)
Definition discovery_run (w : World) : option (completion * list event) :=
  makeRequest "https://your-server-domain.com" "tk_abc123" "my-tenant-id"
    "/api/discovery" (JObject [("query", JString "modern glass doors")]) w.

End Retry.

(** ** The guide's streaming template: [streamChat] *)

Module Stream.

Definition nl : ascii := "010"%char.
Definition dquote : ascii := "034"%char.

(** [s.split('\n')]: one more piece than there are line feeds. *)
Fixpoint split (s : string) : list string :=
  match s with
  | EmptyString => [EmptyString]
  | String c s' =>
      if Ascii.eqb c nl then EmptyString :: split s'
      else
        match split s' with
        | line :: lines => String c line :: lines
        | [] => [String c EmptyString]
        end
  end.

(** [line.startsWith('data: ')]. *)
Definition startsWith_data (line : string) : bool := String.prefix "data: " line.

(** What the template does with an event: a write to standard output, a
    [console.log] or a [console.error] (whose second argument may be
    [undefined]). *)
Inductive output : Type :=
| StdoutWrite (s : string)
| ConsoleLog (s : string)
| ConsoleError (label : string) (v : option json).

(** The request [streamChat] opens the stream with. *)
Definition streamChat_call (BASE_URL API_KEY TENANT_ID message sessionId : string)
    : Retry.event :=
  Retry.EFetch (BASE_URL +:+ "/api/products-chat/stream")
    (Retry.guide_headers API_KEY TENANT_ID)
    (JObject [("message", JString message); ("sessionId", JString sessionId)]).

Definition is_string (v : option json) (s : string) : bool :=
  match v with
  | Some (JString s') => String.eqb s' s
  | _ => false
  end.

Section Decoder.
(** The runtime's [JSON.parse]: a document, or the [SyntaxError] thrown. *)
Variable JSON_parse : string -> js_error + json.

(** The body of [if (line.startsWith('data: '))] for the payload
    [line.slice(6)]: the outputs, or the error thrown. A [null] document
    throws at [data.type], and [process.stdout.write] throws on a chunk
    that is not a string. *)
Definition on_payload (payload : string) : js_error + list output :=
  match JSON_parse payload with
  | inl e => inl e
  | inr data =>
      match get_prop data "type" with
      | inl e => inl e
      | inr type =>
          if is_string type "response-chunk" then
            match get_prop data "data" with
            | inl e => inl e
            | inr (Some (JString s)) => inr [StdoutWrite s]
            | inr _ => inl (TypeError "ERR_INVALID_ARG_TYPE")
            end
          else if is_string type "end" then
            inr [ConsoleLog (String nl "[Stream ended]")]
          else if is_string type "error" then
            match get_prop data "message" with
            | inl e => inl e
            | inr v => inr [ConsoleError "Error:" v]
            end
          else inr []
      end
  end.

(** [for (const line of lines)]: the outputs so far, and the error that
    stopped the loop if one was thrown. *)
Fixpoint for_lines (lines : list string) (out : list output)
    : list output * option js_error :=
  match lines with
  | [] => (out, None)
  | line :: lines' =>
      if startsWith_data line then
        match on_payload (slice 6 line) with
        | inl e => (out, Some e)
        | inr o => for_lines lines' (out ++ o)
        end
      else for_lines lines' out
  end.

(** [while (true)] over the reads of the body: [chunks] are the decoded
    values of the successive [reader.read()] calls up to [done]. Each
    chunk is split and handled on its own; nothing is carried from one
    read to the next. *)
Fixpoint while_reads (chunks : list string) (out : list output)
    : list output * option js_error :=
  match chunks with
  | [] => (out, None)
  | chunk :: chunks' =>
      let lines := split chunk in
      match for_lines lines out with
      | (out', None) => while_reads chunks' out'
      | (out', Some e) => (out', Some e)
      end
  end.

Definition streamChat (chunks : list string) : list output * option js_error :=
  while_reads chunks [].

(** One event for each payload of a list, in order: what a decoder
    that sees whole frames does. *)
Fixpoint emit_frames (payloads : list string) (out : list output)
    : list output * option js_error :=
  match payloads with
  | [] => (out, None)
  | payload :: payloads' =>
      match on_payload payload with
      | inl e => (out, Some e)
      | inr o => emit_frames payloads' (out ++ o)
      end
  end.
End Decoder.

(** A frame on the wire: the [data: ] line and the blank line that ends
    the event. *)
Definition frame (payload : string) : string :=
  "data: " +:+ payload +:+ String nl (String nl EmptyString).

(** A network read that holds whole frames only. *)
Definition frames (payloads : list string) : string :=
  foldr (fun payload rest => frame payload +:+ rest) EmptyString payloads.

Fixpoint has_newline (s : string) : bool :=
  match s with
  | EmptyString => false
  | String c s' => Ascii.eqb c nl || has_newline s'
  end.

(** [{"type": "end"}], and the same with a [data] or [message] field. *)
Definition quoted (s : string) : string :=
  String dquote s +:+ String dquote EmptyString.

Definition end_payload : string :=
  "{" +:+ quoted "type" +:+ ": " +:+ quoted "end" +:+ "}".

Definition chunk_payload (data : string) : string :=
  "{" +:+ quoted "type" +:+ ": " +:+ quoted "response-chunk" +:+ ", "
      +:+ quoted "data" +:+ ": " +:+ quoted data +:+ "}".

(** A parser for the two documents above, as a stand-in for the runtime's
    on these inputs: anything else is a [SyntaxError]. *)
Definition parse_sample (data : string) (s : string) : js_error + json :=
  if String.eqb s end_payload then inr (JObject [("type", JString "end")])
  else if String.eqb s (chunk_payload data)
  then inr (JObject [("type", JString "response-chunk"); ("data", JString data)])
  else inl (SyntaxError "Unexpected end of JSON input").

(** The frame [data: {"type": "end"}] cut after its third character, and
    cut inside its payload. *)
Definition cut_in_prefix : list string :=
  ["dat"; "a: " +:+ end_payload +:+ String nl (String nl EmptyString)].

Definition cut_in_payload : list string :=
  ["data: {" +:+ String dquote "ty";
   "pe" +:+ String dquote ": " +:+ quoted "end" +:+ "}"
        +:+ String nl (String nl EmptyString)].

End Stream.

(** ** The worker: Hono routes and their handlers *)

Module Worker.

(** *** Responses and the handler monad *)

(** A response as a handler builds it: [c.json(value, status)], or the
    plain text of the framework's own answers. *)
Inductive res_body : Type :=
| Json (v : json)
| Text (s : string).

Record HonoResponse : Type := mkRes {
  res_status : Z;
  body : res_body
}.

Definition c_json (v : json) (st : Z) : HonoResponse :=
  {| res_status := st; body := Json v |}.

(** [c.json(value)]: the status defaults to 200. *)
Definition c_json_ok (v : json) : HonoResponse := c_json v 200.

(** One part of the [contents] sent to the image model. *)
Inductive ContentPart : Type :=
| InlineData (mimeType data : string)
| TextPart (text : string).

(** What a handler does to the outside, in program order. *)
Inductive effect : Type :=
| GeminiCall (apiKey model : string) (contents : list ContentPart)
| VisionCall (credentials : json) (content : string)
| ConsoleErrorLog (label : string) (e : js_error).

(** A computation that may throw and that leaves a trace of effects. *)
Definition M (A : Type) : Type := list effect -> (js_error + A) * list effect.

Definition ret {A : Type} (a : A) : M A := fun tr => (inr a, tr).

Definition bind {A B : Type} (m : M A) (k : A -> M B) : M B :=
  fun tr =>
    match m tr with
    | (inl e, tr') => (inl e, tr')
    | (inr a, tr') => k a tr'
    end.

(** [await p] for a promise whose settlement is known. *)
Definition await {A : Type} (p : js_error + A) : M A := fun tr => (p, tr).

Definition emit (ev : effect) : M unit := fun tr => (inr tt, tr ++ [ev]).

(** [try { m } catch (error) { h error }]. *)
Definition try_catch {A : Type} (m : M A) (h : js_error -> M A) : M A :=
  fun tr =>
    match m tr with
    | (inl e, tr') => h e tr'
    | (inr a, tr') => (inr a, tr')
    end.

Notation "x <-- m ;; k" := (bind m (fun x => k))
  (at level 100, m at next level, right associativity).

(** *** Bindings, requests and the services behind the handlers *)

Record Env : Type := mkEnv {
  GEMINI_API_KEY : option string;
  GOOGLE_CREDENTIALS : option string
}.

(** The part of Hono's context the handlers read: the request's form
    (parsing it may reject) and the bindings. *)
Record Context : Type := mkContext {
  req_formData : js_error + FormData;
  env : Env
}.

(** The answer of the image model, with the optional fields the handler
    tests. *)
Record Blob : Type := mkBlob {
  blob_data : option string;
  blob_mimeType : option string
}.

Record Part : Type := mkPart { inlineData : option Blob }.

Record Content : Type := mkContent { parts : option (list Part) }.

Record Candidate : Type := mkCandidate { content : option Content }.

Record GenerateContentResponse : Type := mkGenerated {
  candidates : option (list Candidate)
}.

(** The answer of the vision service. *)
Record NormalizedVertex : Type := mkVertex { vx : option Q; vy : option Q }.

Record BoundingPoly : Type := mkPoly {
  normalizedVertices : option (list NormalizedVertex)
}.

Record LocalizedObject : Type := mkObject {
  obj_name : option string;
  obj_score : option Q;
  obj_boundingPoly : option BoundingPoly
}.

Record LabelAnnotation : Type := mkLabel {
  label_description : option string;
  label_score : option Q
}.

Record AnnotateImageResponse : Type := mkAnnotated {
  localizedObjectAnnotations : option (list LocalizedObject);
  labelAnnotations : option (list LabelAnnotation)
}.

(** The two third-party services: each call resolves or rejects. *)
Record Services : Type := mkServices {
  generateContent : string -> string -> list ContentPart
                    -> js_error + GenerateContentResponse;
  annotateImage : json -> string -> js_error + AnnotateImageResponse
}.

(** *** [Buffer.toString("base64")] *)

Definition base64_alphabet : string :=
  "ABCDEFGHIJKLMNOPQRSTUVWXYZabcdefghijklmnopqrstuvwxyz0123456789+/".

Definition base64_digit (n : N) : ascii :=
  match String.get (N.to_nat n) base64_alphabet with
  | Some c => c
  | None => "="%char
  end.

Fixpoint base64 (bytes : list N) : string :=
  match bytes with
  | [] => EmptyString
  | [a] =>
      String (base64_digit (a / 4))
        (String (base64_digit (a mod 4 * 16)) "==")
  | [a; b] =>
      String (base64_digit (a / 4))
        (String (base64_digit (a mod 4 * 16 + b / 16))
           (String (base64_digit (b mod 16 * 4)) "="))
  | a :: b :: c :: rest =>
      String (base64_digit (a / 4))
        (String (base64_digit (a mod 4 * 16 + b / 16))
           (String (base64_digit (b mod 16 * 4 + c / 64))
              (String (base64_digit (c mod 64)) (base64 rest))))
  end%N.

(** [Buffer.from(await file.arrayBuffer()).toString("base64")]. *)
Definition toString_base64 (f : File) : string :=
  base64 (Byte.to_N <$> file_bytes f).

(** [s || d] on strings, and [q || 0] on numbers that may be missing. *)
Definition string_or (s d : string) : string :=
  if String.eqb s EmptyString then d else s.

Definition option_string_or (s : option string) (d : string) : string :=
  match s with
  | Some s => string_or s d
  | None => d
  end.

Definition number_or_0 (q : option Q) : Q :=
  match q with
  | Some q => if Qeq_bool q 0 then 0%Q else q
  | None => 0%Q
  end.

(** *** [POST /generate] of the image route *)

(** The first part that carries image data, with its media type: the
    [for ... break] over the parts of the first candidate. *)
Fixpoint find_image (ps : list Part) : option (string * string) :=
  match ps with
  | [] => None
  | part :: ps' =>
      match inlineData part with
      | Some blob =>
          match blob_data blob with
          | Some data =>
              if negb (String.eqb data EmptyString)
              then Some (data, option_string_or (blob_mimeType blob) "image/png")
              else find_image ps'
          | None => find_image ps'
          end
      | None => find_image ps'
      end
  end.

(** [response.candidates[0].content?.parts] after the two tests on
    [candidates]: [None] where the handler answers that no image was
    generated. *)
Definition first_parts (response : GenerateContentResponse) : option (list Part) :=
  match candidates response with
  | None | Some [] => None
  | Some (candidate :: _) =>
      match content candidate with
      | None => None
      | Some ct => parts ct
      end
  end.

Definition error_body (message : string) : json :=
  JObject [("error", JString message)].

Section Handlers.
Variable services : Services.

(** The body of the [try] block. *)
Definition generate_try (c : Context) : M HonoResponse :=
  formData <-- await (req_formData c) ;;
  let userImage := get formData "userImage" in
  let productImage1 := get formData "productImage1" in
  let productImage2 := get formData "productImage2" in
  let prompt := get formData "prompt" in
  match userImage with
  | Some (FFile userImage) =>
      match productImage1 with
      | Some (FFile productImage1) =>
          match prompt with
          | Some (FString prompt) =>
              if String.eqb prompt EmptyString
              then ret (c_json (error_body "Prompt text is required") 400)
              else
                match GEMINI_API_KEY (env c) with
                | None => ret (c_json (error_body "Gemini API key not configured") 500)
                | Some apiKey =>
                    if String.eqb apiKey EmptyString
                    then ret (c_json (error_body "Gemini API key not configured") 500)
                    else
                      let userImageBase64 := toString_base64 userImage in
                      let product1Base64 := toString_base64 productImage1 in
                      let contentParts :=
                        [InlineData (string_or (file_type userImage) "image/jpeg")
                                    userImageBase64;
                         InlineData (string_or (file_type productImage1) "image/jpeg")
                                    product1Base64] in
                      let contentParts :=
                        match productImage2 with
                        | Some (FFile productImage2) =>
                            contentParts ++
                            [InlineData (string_or (file_type productImage2) "image/jpeg")
                                        (toString_base64 productImage2)]
                        | _ => contentParts
                        end in
                      let contentParts := contentParts ++ [TextPart prompt] in
                      _ <-- emit (GeminiCall apiKey "gemini-2.5-flash-image" contentParts) ;;
                      response <-- await (generateContent services apiKey
                                            "gemini-2.5-flash-image" contentParts) ;;
                      match first_parts response with
                      | None => ret (c_json (error_body "No image generated in response") 500)
                      | Some ps =>
                          match find_image ps with
                          | None =>
                              ret (c_json (error_body "No image data found in response") 500)
                          | Some (generatedImageData, mimeType) =>
                              ret (c_json_ok
                                     (JObject [("generatedImage", JString generatedImageData);
                                               ("mimeType", JString mimeType)]))
                          end
                      end
                end
          | _ => ret (c_json (error_body "Prompt text is required") 400)
          end
      | _ => ret (c_json (error_body "At least one product image is required") 400)
      end
  | _ => ret (c_json (error_body "User image is required") 400)
  end.

(** The [catch] clause. Every error the services and the runtime throw
    is an [Error], so [details] is its message. *)
Definition generate_catch (error : js_error) : M HonoResponse :=
  _ <-- emit (ConsoleErrorLog "Nano Banana API error:" error) ;;
  ret (c_json (JObject [("error", JString "Failed to generate image");
                        ("details", JString (message_of error))]) 500).

Definition generate (c : Context) : M HonoResponse :=
  try_catch (generate_try c) generate_catch.

(** *** [POST /analyze] of the vision route *)

(** The runtime's [JSON.parse], used on the credentials binding. *)
Variable JSON_parse : string -> js_error + json.

Definition vertex_json (v : NormalizedVertex) : json :=
  JObject [("x", JNumber (number_or_0 (vx v)));
           ("y", JNumber (number_or_0 (vy v)))].

Definition object_json (obj : LocalizedObject) : json :=
  JObject
    [("name", JString (option_string_or (obj_name obj) "Unknown"));
     ("confidence", JNumber (number_or_0 (obj_score obj)));
     ("boundingPoly",
      JObject [("normalizedVertices",
                JArray (match obj_boundingPoly obj with
                        | Some poly =>
                            match normalizedVertices poly with
                            | Some vs => vertex_json <$> vs
                            | None => []
                            end
                        | None => []
                        end))])].

Definition label_json (label : LabelAnnotation) : json :=
  JObject
    [("description", JString (option_string_or (label_description label) "Unknown"));
     ("confidence", JNumber (number_or_0 (label_score label)))].

Definition analyze_try (c : Context) : M HonoResponse :=
  formData <-- await (req_formData c) ;;
  let imageFile := get formData "image" in
  match imageFile with
  | Some (FFile imageFile) =>
      let buffer := toString_base64 imageFile in
      match GOOGLE_CREDENTIALS (env c) with
      | None => ret (c_json (error_body "Google credentials not configured") 500)
      | Some credentialsJson =>
          if String.eqb credentialsJson EmptyString
          then ret (c_json (error_body "Google credentials not configured") 500)
          else
            credentials <-- await (JSON_parse credentialsJson) ;;
            _ <-- emit (VisionCall credentials buffer) ;;
            result <-- await (annotateImage services credentials buffer) ;;
            let objects :=
              object_json <$> default [] (localizedObjectAnnotations result) in
            let labels :=
              label_json <$> default [] (labelAnnotations result) in
            ret (c_json_ok (JObject [("objects", JArray objects);
                                     ("labels", JArray labels)]))
      end
  | _ => ret (c_json (error_body "No image file provided") 400)
  end.

Definition analyze_catch (error : js_error) : M HonoResponse :=
  _ <-- emit (ConsoleErrorLog "Vision API error:" error) ;;
  ret (c_json (JObject [("error", JString "Failed to analyze image");
                        ("details", JString (message_of error))]) 500).

Definition analyze (c : Context) : M HonoResponse :=
  try_catch (analyze_try c) analyze_catch.
End Handlers.

(** *** Hono: route tables and dispatch *)

Definition Handler : Type := Context -> M HonoResponse.

Record Route : Type := mkRoute {
  route_method : string;
  route_path : string;
  route_handler : Handler
}.

(** An application is its routes in registration order. The [logger()]
    middleware on ['*'] writes a line per request and calls [next()]; it
    answers no request and is left out of the table. *)
Definition Hono : Type := list Route.

Definition starts_with_slash (s : string) : bool := String.prefix "/" s.

Fixpoint ends_with_slash (s : string) : bool :=
  match s with
  | EmptyString => false
  | String c EmptyString => Ascii.eqb c "/"%char
  | String _ s' => ends_with_slash s'
  end.

(** Hono's [mergePath(base, sub)]. *)
Definition mergePath (base sub : string) : string :=
  (if starts_with_slash base then EmptyString else "/") +:+ base +:+
  (if String.eqb sub "/" then EmptyString
   else (if ends_with_slash base then EmptyString else "/") +:+
        (if starts_with_slash sub then slice 1 sub else sub)).

(** [app.get(path, handler)] and [app.post(path, handler)] on an
    application whose base path is ["/"]. *)
Definition hono_get (app : Hono) (path : string) (h : Handler) : Hono :=
  app ++ [mkRoute "GET" (mergePath "/" path) h].

Definition hono_post (app : Hono) (path : string) (h : Handler) : Hono :=
  app ++ [mkRoute "POST" (mergePath "/" path) h].

(** [app.route(path, sub)]: every route of [sub], under the base path
    that [path] gives. *)
Definition hono_route (app : Hono) (path : string) (sub : Hono) : Hono :=
  let basePath := mergePath "/" path in
  app ++ ((fun r => mkRoute (route_method r) (mergePath basePath (route_path r))
                            (route_handler r)) <$> sub).

Definition notFound : HonoResponse :=
  {| res_status := 404; body := Text "404 Not Found" |}.

(** Hono's default error handler. *)
Definition errorHandler (error : js_error) : M HonoResponse :=
  _ <-- emit (ConsoleErrorLog EmptyString error) ;;
  ret {| res_status := 500; body := Text "Internal Server Error" |}.

Definition matches (method path : string) (r : Route) : bool :=
  String.eqb (route_method r) method && String.eqb (route_path r) path.

(** [app.fetch(request)] for a request of the given method and path:
    the first matching route answers, the default [notFound] otherwise. *)
Definition hono_fetch (app : Hono) (method path : string) (c : Context)
    : M HonoResponse :=
  match List.find (matches method path) app with
  | Some r => try_catch (route_handler r c) errorHandler
  | None => ret notFound
  end.

(** *** The applications of the repository *)

Definition message_body (message : string) : json :=
  JObject [("message", JString message)].

Definition products : Hono :=
  hono_get [] "/" (fun _ => ret (c_json_ok (message_body "So many products!"))).

Definition discovery : Hono :=
  hono_get [] "/" (fun _ => ret (c_json_ok (message_body "Lets discover!"))).

Definition chat : Hono :=
  hono_get [] "/" (fun _ => ret (c_json_ok (message_body "Lets chat!"))).

Definition nanoBanana (services : Services) : Hono :=
  hono_post [] "/generate" (generate services).

Definition vision (services : Services)
    (JSON_parse : string -> js_error + json) : Hono :=
  hono_post [] "/analyze" (analyze services JSON_parse).

Definition api_root : Handler :=
  fun _ => ret (c_json_ok (JObject [("name", JString "Goto Demo API")])).

(** The first [index.ts]: three routes and the root of the API. *)
Definition app_initial : Hono :=
  let app := [] in
  let app := hono_route app "/api/products/" products in
  let app := hono_route app "/api/discovery/" discovery in
  let app := hono_route app "/api/chat/" chat in
  hono_get app "/api/" api_root.

(** The later [index.ts]: the image route is mounted, the vision route
    is commented out. *)
Definition app (services : Services) : Hono :=
  let app := [] in
  let app := hono_route app "/api/products/" products in
  let app := hono_route app "/api/discovery/" discovery in
  let app := hono_route app "/api/chat/" chat in
  let app := hono_route app "/api/nano-banana/" (nanoBanana services) in
  hono_get app "/api/" api_root.

(** The paths an application answers, with their methods. *)
Definition route_table (app : Hono) : list (string * string) :=
  (fun r => (route_method r, route_path r)) <$> app.

(** *** Sample requests, and the tests the properties are stated with *)

(** Services that are down: every call rejects. *)
Definition offline : Services :=
  {| generateContent := fun _ _ _ => inl (Error "fetch failed");
     annotateImage := fun _ _ => inl (Error "fetch failed") |}.

Definition no_bindings : Env :=
  {| GEMINI_API_KEY := None; GOOGLE_CREDENTIALS := None |}.

(** What [formData()] rejects with on a body that is no form. *)
Definition not_a_form : js_error :=
  TypeError "Content-Type was not multipart/form-data".

(** A request with no form in it, as a [GET] is. *)
Definition bare_request : Context :=
  {| req_formData := inl not_a_form; env := no_bindings |}.

(** The answer of the [catch] clause of [POST /generate] to it. *)
Definition generate_failed : HonoResponse :=
  c_json (JObject [("error", JString "Failed to generate image");
                   ("details", JString "Content-Type was not multipart/form-data")])
         500.

(** The shapes of an error body: the two the specification lists, and
    the one the [catch] clauses build. *)
Definition shape_error_string (b : res_body) : Prop :=
  exists message, b = Json (JObject [("error", JString message)]).

Definition shape_error_object (b : res_body) : Prop :=
  exists st code message,
    b = Json (JObject [("error", JObject [("status", st); ("code", code);
                                          ("message", message)])]).

Definition shape_error_details (b : res_body) : Prop :=
  exists message details,
    b = Json (JObject [("error", JString message); ("details", JString details)]).

(** The form the frontend posts for one product image, and a request
    that carries it with no binding set. *)
Definition form_with_prompt (prompt : string) : FormData :=
  Frontend.generateImage_form Frontend.selectedFile [Frontend.selectedFile] prompt.

Definition request_with_prompt (prompt : string) : Context :=
  {| req_formData := inr (form_with_prompt prompt); env := no_bindings |}.

(** The tests of the handler on an entry of the form. *)
Definition is_file (v : option FormDataEntryValue) : bool :=
  match v with
  | Some (FFile _) => true
  | _ => false
  end.

Definition is_string_entry (v : option FormDataEntryValue) : bool :=
  match v with
  | Some (FString _) => true
  | _ => false
  end.

Definition is_nonempty_string (v : option FormDataEntryValue) : bool :=
  match v with
  | Some (FString s) => negb (String.eqb s EmptyString)
  | _ => false
  end.

Definition unset_or_empty (key : option string) : bool :=
  match key with
  | Some k => String.eqb k EmptyString
  | None => true
  end.

End Worker.

(** ** The guide's catalog clients: [getProducts] and [get_products] *)

Module Catalog.



(** [...(v && { k: v })]: one entry when [v] is a non-empty string. *)
Definition optional (k : string) (v : option string) : list (string * string) :=
  match v with
  | Some v => if String.eqb v EmptyString then [] else [(k, v)]
  | None => []
  end.



End Catalog.

(** ** The frontend against the worker *)

Module Network.
Import Frontend Worker.

(** The method of a [fetch] call: [GET] unless the init object names one. *)
Definition call_method (init : RequestInit) : string :=
  match init_method init with
  | Present (Some m) => m
  | _ => "GET"
  end.

(** What [c.req.formData()] gives for the body of a call: the form that
    was posted, and a rejection for any other body. *)
Definition sent_form (init : RequestInit) : js_error + FormData :=
  match init_body init with
  | Present (Some (BodyForm formData)) => inr formData
  | _ => inl (TypeError "Content-Type was not multipart/form-data")
  end.

Section Wire.
(** The runtime's [JSON.stringify], which [c.json] writes bodies with. *)
Variable JSON_stringify : json -> string.
Variable bindings : Env.

(** A worker response as the browser's [fetch] sees it. *)
Definition to_response (r : HonoResponse) : Response :=
  {| status := res_status r;
     text := inr match body r with
                 | Json v => JSON_stringify v
                 | Text s => s
                 end;
     json_body := match body r with
                  | Json v => inr v
                  | Text _ => inl (SyntaxError "Unexpected token")
                  end |}.

(** The same-origin [fetch] of the browser, served by an application: the
    request reaches [app.fetch] with its method, its path and its form. *)
Definition worker_fetch (app : Hono) : string -> RequestInit -> fetch_outcome :=
  fun url init =>
    match hono_fetch app (call_method init) url
            {| req_formData := sent_form init; env := bindings |} [] with
    | (inr r, _) => Responded (to_response r)
    | (inl e, _) => NetworkFailure e
    end.
End Wire.

(** The [catch] handler of the guidelines' [ProductList]: the message it
    sets for what [api.products()] rejects with. *)
Definition ProductList_message (e : js_error) : string :=
  match e with
  | ApiError st _ => if st =? 404 then "No products found" else "Failed to load"
  | _ => "Network error"
  end.

(** The error [ProductList] shows after its effect ran: none when
    [api.products()] resolved. *)
Definition ProductList_error (fetch : string -> RequestInit -> fetch_outcome)
    : option string :=
  match Frontend.products fetch with
  | Resolved _ => None
  | Rejected e => Some (ProductList_message e)
  end.

End Network.

(** ** The visualizer component: the state of [App] and its handlers *)

Module UI.

(** The [useState] cells of [App]. *)
Record State : Type := mkState {
  selectedFile : option File;
  imageUrl : string;
  generatedImageUrl : string;
  loading : bool;
  error : string;
  showOriginal : bool;
  productType : string;
  color : string
}.

(** One call of [api.generateImage]: its three arguments. *)
Record Call : Type := mkCall {
  call_userImage : File;
  call_productImages : list File;
  call_prompt : string
}.

(** The component between two events: its state, the calls of
    [api.generateImage] it has made, and how many of them have not
    settled yet. *)
Record App : Type := mkApp {
  state : State;
  calls : list Call;
  pending : nat
}.

Definition initial : App :=
  {| state := {| selectedFile := None; imageUrl := EmptyString;
                 generatedImageUrl := EmptyString; loading := false;
                 error := EmptyString; showOriginal := true;
                 productType := "blinds"; color := "white" |};
     calls := [];
     pending := 0 |}.

(** What happens to the component: the file input changes, a select
    changes, a button is clicked, or a call of [api.generateImage]
    settles. *)
Inductive event : Type :=
| FileChosen (files : list File)
| ProductTypeChosen (value : string)
| ColorChosen (value : string)
| VisualizeClicked
| ToggleClicked
| Settled (result : outcome json).

(** The prompt [handleVisualize] builds from the two selects. *)
Definition prompt_of (color productType : string) : string :=
  "Add " +:+ color +:+ " " +:+ productType +:+
  " to the windows in this room, make it look realistic and natural with proper lighting and shadows".

Section Handlers.
(** [URL.createObjectURL], and the string conversion of a template
    literal's hole. *)
Variable createObjectURL : File -> string.
Variable ToString : option json -> string.

(** [handleFileSelect]: nothing happens when no file was chosen. *)
Definition handleFileSelect (files : list File) (s : State) : State :=
  match files !! 0%nat with
  | Some file =>
      {| selectedFile := Some file;
         imageUrl := createObjectURL file;
         generatedImageUrl := EmptyString;
         loading := loading s;
         error := EmptyString;
         showOriginal := true;
         productType := productType s;
         color := color s |}
  | None => s
  end.

(** [handleVisualize] up to its [await]: the state it sets and the call
    it makes, or nothing when no file is selected. *)
Definition handleVisualize_start (s : State) : State * option Call :=
  match selectedFile s with
  | None => (s, None)
  | Some file =>
      ({| selectedFile := selectedFile s;
          imageUrl := imageUrl s;
          generatedImageUrl := generatedImageUrl s;
          loading := true;
          error := EmptyString;
          showOriginal := showOriginal s;
          productType := productType s;
          color := color s |},
       Some {| call_userImage := file;
               call_productImages := [file];
               call_prompt := prompt_of (color s) (productType s) |})
  end.

(** The data URL of a result, or the [TypeError] of reading a property of
    [null]. *)
Definition dataUrl_of (result : json) : js_error + string :=
  match get_prop result "mimeType" with
  | inl e => inl e
  | inr mimeType =>
      match get_prop result "generatedImage" with
      | inl e => inl e
      | inr generatedImage =>
          inr ("data:" +:+ ToString mimeType +:+ ";base64," +:+ ToString generatedImage)
      end
  end.

(** [handleVisualize] from its [await] on: the rest of the [try] block,
    the [catch] clause and the [finally] clause. *)
Definition handleVisualize_settle (result : outcome json) (s : State) : State :=
  let s :=
    match result with
    | Resolved result =>
        match dataUrl_of result with
        | inr dataUrl =>
            {| selectedFile := selectedFile s; imageUrl := imageUrl s;
               generatedImageUrl := dataUrl; loading := loading s;
               error := error s; showOriginal := false;
               productType := productType s; color := color s |}
        | inl err =>
            {| selectedFile := selectedFile s; imageUrl := imageUrl s;
               generatedImageUrl := generatedImageUrl s; loading := loading s;
               error := message_of err; showOriginal := showOriginal s;
               productType := productType s; color := color s |}
        end
    | Rejected err =>
        {| selectedFile := selectedFile s; imageUrl := imageUrl s;
           generatedImageUrl := generatedImageUrl s; loading := loading s;
           error := message_of err; showOriginal := showOriginal s;
           productType := productType s; color := color s |}
    end in
  {| selectedFile := selectedFile s; imageUrl := imageUrl s;
     generatedImageUrl := generatedImageUrl s; loading := false;
     error := error s; showOriginal := showOriginal s;
     productType := productType s; color := color s |}.

(** The toggle button: [setShowOriginal(!showOriginal)]. *)
Definition toggle (s : State) : State :=
  {| selectedFile := selectedFile s; imageUrl := imageUrl s;
     generatedImageUrl := generatedImageUrl s; loading := loading s;
     error := error s; showOriginal := negb (showOriginal s);
     productType := productType s; color := color s |}.

Definition set_productType (value : string) (s : State) : State :=
  {| selectedFile := selectedFile s; imageUrl := imageUrl s;
     generatedImageUrl := generatedImageUrl s; loading := loading s;
     error := error s; showOriginal := showOriginal s;
     productType := value; color := color s |}.

Definition set_color (value : string) (s : State) : State :=
  {| selectedFile := selectedFile s; imageUrl := imageUrl s;
     generatedImageUrl := generatedImageUrl s; loading := loading s;
     error := error s; showOriginal := showOriginal s;
     productType := productType s; color := value |}.

Definition nonempty (s : string) : bool := negb (String.eqb s EmptyString).

(** One event. [None] when the page offers no such event: the
    visualize button is rendered only with a selected file and is disabled
    while [loading]; the toggle button is rendered only with an image URL
    and a generated image URL; a call settles only if one is pending. *)
Definition step (a : App) (ev : event) : option App :=
  match ev with
  | FileChosen files =>
      Some {| state := handleFileSelect files (state a);
              calls := calls a; pending := pending a |}
  | ProductTypeChosen value =>
      Some {| state := set_productType value (state a);
              calls := calls a; pending := pending a |}
  | ColorChosen value =>
      Some {| state := set_color value (state a);
              calls := calls a; pending := pending a |}
  | VisualizeClicked =>
      match selectedFile (state a), loading (state a) with
      | Some _, false =>
          match handleVisualize_start (state a) with
          | (s, Some call) =>
              Some {| state := s; calls := calls a ++ [call];
                      pending := S (pending a) |}
          | (s, None) =>
              Some {| state := s; calls := calls a; pending := pending a |}
          end
      | _, _ => None
      end
  | ToggleClicked =>
      if nonempty (imageUrl (state a)) && nonempty (generatedImageUrl (state a))
      then Some {| state := toggle (state a);
                   calls := calls a; pending := pending a |}
      else None
  | Settled result =>
      match pending a with
      | O => None
      | S n =>
          Some {| state := handleVisualize_settle result (state a);
                  calls := calls a; pending := n |}
      end
  end.

(** A session: the events of a list, one after the other. *)
Fixpoint run (a : App) (events : list event) : option App :=
  match events with
  | [] => Some a
  | ev :: events' =>
      match step a ev with
      | Some a' => run a' events'
      | None => None
      end
  end.
End Handlers.

(** The image the page shows in its preview. *)
Definition shown_src (s : State) : string :=
  if showOriginal s then imageUrl s else generatedImageUrl s.

(** A call as [handleVisualize] makes it: the user image is the only
    product image, and the prompt is built from two selected values. *)
Definition from_handleVisualize (c : Call) : Prop :=
  call_productImages c = [call_userImage c] /\
  exists color productType, call_prompt c = prompt_of color productType.

(** What holds between two events of a session. *)
Definition consistent (a : App) : Prop :=
  pending a = (if loading (state a) then 1 else 0)%nat /\
  (generatedImageUrl (state a) = EmptyString \/
   exists rest, generatedImageUrl (state a) = "data:" +:+ rest) /\
  (showOriginal (state a) = false -> generatedImageUrl (state a) <> EmptyString) /\
  Forall from_handleVisualize (calls a).

End UI.

(** ** Observations on traces and calls *)

Module Observe.

(** The time a run of [makeRequest] spends in [sleep]. *)
Definition total_sleep (tr : list Retry.event) : Z :=
  foldr Z.add 0 (Retry.sleeps tr).

(** A response of the server-error class, as the template tests it. *)
Definition server_error (o : fetch_outcome) : Prop :=
  exists r, o = Responded r /\ 500 <= status r.

(** The world of the specification's recovery test: 503 twice, then a
    200 with a body. *)
Definition flaky : Retry.World :=
  fun n =>
    if (n <? 2)%nat
    then Responded (mkResponse 503 (inr EmptyString) (inr JNull))
    else Responded (mkResponse 200 (inr EmptyString)
                      (inr (JObject [("items", JArray [])]))).

(** A read of the stream that ends with a line feed. *)
Definition line_ended (t : string) : string :=
  t +:+ String Stream.nl EmptyString.


Definition is_vision_call (ev : Worker.effect) : bool :=
  match ev with
  | Worker.VisionCall _ _ => true
  | _ => false
  end.

(** A JSON object whose field [k] is a non-empty string. *)
Definition has_text (k : string) (v : json) : Prop :=
  exists s, get_prop v k = inr (Some (JString s)) /\ s <> EmptyString.

(** A part of the model's answer that carries no image data. *)
Definition no_image (part : Worker.Part) : Prop :=
  match Worker.inlineData part with
  | Some blob =>
      match Worker.blob_data blob with
      | Some data => data = EmptyString
      | None => True
      end
  | None => True
  end.

(** An image model that answers with a text part and then a PNG with no
    media type given, and a vision service that finds one object with no
    name and one label. *)
Definition studio : Worker.Services :=
  {| Worker.generateContent := fun _ _ _ =>
       inr (Worker.mkGenerated
              (Some [Worker.mkCandidate
                       (Some (Worker.mkContent
                                (Some [Worker.mkPart None;
                                       Worker.mkPart
                                         (Some (Worker.mkBlob (Some "iVBORw0KGgo=") None))])))]));
     Worker.annotateImage := fun _ _ =>
       inr (Worker.mkAnnotated
              (Some [Worker.mkObject None (Some 0.9%Q) None])
              (Some [Worker.mkLabel (Some "Window") None])) |}.

(** The frontend's form for one product image, with both bindings set. *)
Definition configured : Worker.Env :=
  {| Worker.GEMINI_API_KEY := Some "key-1";
     Worker.GOOGLE_CREDENTIALS := Some "{}" |}.

Definition visualize_request : Worker.Context :=
  {| Worker.req_formData := inr (Worker.form_with_prompt "Add white blinds");
     Worker.env := configured |}.

Definition analyze_request : Worker.Context :=
  {| Worker.req_formData := inr (Frontend.analyzeImage_form Frontend.selectedFile);
     Worker.env := configured |}.

(** The options of the guidelines' [submitConfiguration]: a method and
    a body, no headers. *)
Definition submitConfiguration_options : Frontend.RequestInit :=
  {| Frontend.init_method := Frontend.Present (Some "POST");
     Frontend.init_headers := Frontend.Absent;
     Frontend.init_body := Frontend.Present (Some (Frontend.BodyText "{}")) |}.

(** A stand-in for [JSON.parse] that reads every text as the empty
    object. *)
Definition parse_any : string -> js_error + json := fun _ => inr (JObject []).

(** Stand-ins for [URL.createObjectURL] and for the string conversion of
    a template literal's hole. *)
Definition blob_url (f : File) : string := "blob:" +:+ file_name f.

Definition hole (v : option json) : string :=
  match v with
  | Some (JString s) => s
  | _ => "undefined"
  end.

(** A session of the visualizer: a file is chosen and the button is
    clicked; the call has not settled yet. *)
Definition session : list UI.event :=
  [UI.FileChosen [Frontend.selectedFile]; UI.VisualizeClicked].

Definition visualizing : UI.App :=
  {| UI.state :=
       {| UI.selectedFile := Some Frontend.selectedFile;
          UI.imageUrl := "blob:room.jpg";
          UI.generatedImageUrl := EmptyString;
          UI.loading := true;
          UI.error := EmptyString;
          UI.showOriginal := true;
          UI.productType := "blinds";
          UI.color := "white" |};
     UI.calls :=
       [{| UI.call_userImage := Frontend.selectedFile;
           UI.call_productImages := [Frontend.selectedFile];
           UI.call_prompt := UI.prompt_of "white" "blinds" |}];
     UI.pending := 1 |}.

(** The same session once the worker has answered with a PNG. *)
Definition answered : json :=
  JObject [("generatedImage", JString "iVBORw0KGgo="); ("mimeType", JString "image/png")].


End Observe.

(** * Properties *)

Module RetryFacts.
Import Retry.

Section Facts.
Variables (BASE_URL API_KEY TENANT_ID : string).
Variables (endpoint : string) (body : json).

Local Abbreviation run := (makeRequest BASE_URL API_KEY TENANT_ID endpoint body).
Local Abbreviation F := (the_fetch BASE_URL API_KEY TENANT_ID endpoint body).

(** Every run ends within the fuel [makeRequest] gives its loop, on one
    of four traces. *)
Lemma makeRequest_traces (w : World) :
  exists c tr, run w = Some (c, tr) /\
    (tr = [F] \/ tr = [F; ESleep 2000; F] \/
     tr = [F; ESleep 2000; F; ESleep 4000; F] \/
     tr = [F; ESleep 2000; F; ESleep 4000; F; ESleep 8000]).
Proof.
  unfold makeRequest. cbn [loop].
  change (0 <? maxRetries) with true. cbn match.
  destruct (try_block (w 0%nat)); cbn;
    [eauto 10 | | ];
    (destruct (try_block (w 1%nat)); cbn;
     [eauto 10 | | ];
     (destruct (try_block (w 2%nat)); cbn; eauto 10)).
Qed.

(** C2 (as amended). Every run of [makeRequest] ends, makes at most
    three attempts, sleeps nothing before the first and
    [1000 * 2^(k-1)] ms before attempt [k >= 2] (2000 ms before the
    second, 4000 ms before the third); and when the three calls of
    [fetch] all reject, the third rejection is rethrown to the caller
    after exactly these three attempts. *)
Theorem makeRequest_backoff_schedule :
  (forall w : World, exists c tr,
      run w = Some (c, tr) /\ (attempts tr <= 3)%nat /\
      delays_before tr = delay_before_attempt <$> seq 1 (attempts tr)) /\
  (forall (w : World) (e1 e2 e3 : js_error),
      run (rejecting e1 e2 e3 w)
      = Some (Throw (Thrown e3), [F; ESleep 2000; F; ESleep 4000; F])).
Proof.
  split.
  - intros w. destruct (makeRequest_traces w) as (c & tr & -> & Htr).
    exists c, tr. split; [reflexivity|].
    destruct Htr as [-> | [-> | [-> | ->]]]; split; cbn; solve [lia | reflexivity].
  - intros w e1 e2 e3. reflexivity.
Qed.

(** C3 (the defect). An authentication failure is thrown inside the
    [try] block, so the [catch] clause of the same iteration receives it
    and retries: a server that always answers 401 is called three times,
    with the two back-off sleeps in between, before the error reaches the
    caller. The same holds for 403, 400 and 404. *)
Theorem makeRequest_retries_terminal_failures (b : json) :
  run (always 401 b)
  = Some (Throw (NewError (JString "Authentication failed")),
          [F; ESleep 2000; F; ESleep 4000; F]) /\
  run (always 403 b)
  = Some (Throw (NewError (JString "Authentication failed")),
          [F; ESleep 2000; F; ESleep 4000; F]) /\
  (exists e, run (always 400 b) = Some (Throw e, [F; ESleep 2000; F; ESleep 4000; F])) /\
  (exists e, run (always 404 b) = Some (Throw e, [F; ESleep 2000; F; ESleep 4000; F])).
Proof.
  repeat split; try reflexivity.
  - unfold makeRequest, always; cbn.
    destruct (get_prop b "error"); eauto.
  - unfold makeRequest, always; cbn.
    destruct (get_prop b "error"); eauto.
Qed.
End Facts.

(** The scenario of the specification: 503 twice, then 200. The third
    attempt succeeds, after delays of 2000 and 4000 ms. *)
Example makeRequest_recovers :
  exists tr,
    discovery_run (fun n => if (n <? 2)%nat
                            then Responded (mkResponse 503 (inr EmptyString) (inr JNull))
                            else Responded (mkResponse 200 (inr EmptyString)
                                              (inr (JObject [("items", JArray [])]))))
    = Some (Return (JObject [("items", JArray [])]), tr) /\
    attempts tr = 3%nat /\ sleeps tr = [2000; 4000].
Proof. eexists. repeat split; reflexivity. Qed.

(** C2 (counterexample). Three 503 answers: the template sleeps 2000,
    4000 and then 8000 ms (three delays, for no base delay the two the
    specification states), and then falls out of the loop: the caller gets
    [undefined], not the last error. *)
Lemma makeRequest_all_503 :
  exists tr,
    discovery_run (always 503 JNull) = Some (ReturnUndefined, tr) /\
    attempts tr = 3%nat /\
    sleeps tr = [2000; 4000; 8000] /\
    delays_before tr <> spec_delay_before_attempt 1000 <$> seq 1 (attempts tr) /\
    ~ (exists baseDelayMs, sleeps tr = [baseDelayMs; 2 * baseDelayMs]).
Proof.
  eexists. split; [reflexivity|].
  split; [reflexivity|]. split; [reflexivity|].
  split; [discriminate|]. intros [base Hb]. discriminate Hb.
Qed.

End RetryFacts.

Module FrontendFacts.
Import Frontend.

(** The headers of the init object [request] builds, by the shape of the
    caller's options. *)
Lemma request_call_headers (endpoint : string) (options : option RequestInit) :
  init_headers (request_call endpoint options).2 =
  match options with
  | Some o =>
      match init_headers o with
      | Present v => Present v
      | Absent => Present (Some {[ "Content-Type" := "application/json" ]})
      end
  | None => Present (Some {[ "Content-Type" := "application/json" ]})
  end.
Proof.
  destruct options as [o|]; [|reflexivity].
  unfold request_call, options_headers; cbn.
  destruct (init_headers o); reflexivity.
Qed.

(** C1 (counterexample). On a 404 answer [request] does not return the
    status and body: it throws an [ApiError]. *)
Lemma request_throws_on_404 :
  request fetch_404 "/health" None = Rejected (ApiError 404 "404 Not Found") /\
  ~ (exists v, request fetch_404 "/health" None = Resolved v).
Proof.
  split; [reflexivity|]. intros [v Hv]. discriminate Hv.
Qed.

(** C1 (as amended). For every response whose status is not 2xx,
    [request] throws an [ApiError] that carries the status and the body
    text, or [API error: <status>] when the body cannot be read. It
    returns the parsed body only for a 2xx response (and throws what
    [json()] rejects with when the body is no JSON), and a connection-level
    failure of [fetch] reaches the caller as it is. *)
Theorem request_rejects_non_2xx
    (fetch : string -> RequestInit -> fetch_outcome)
    (endpoint : string) (options : option RequestInit) :
  (forall res,
      fetch (API_BASE +:+ endpoint) (request_call endpoint options).2 = Responded res ->
      ok res = false ->
      request fetch endpoint options =
        Rejected (ApiError (status res)
                    (match text res with
                     | inr s => s
                     | inl _ => "API error: " +:+ pretty (status res)
                     end))) /\
  (forall res,
      fetch (API_BASE +:+ endpoint) (request_call endpoint options).2 = Responded res ->
      ok res = true ->
      request fetch endpoint options =
        match json_body res with
        | inr v => Resolved v
        | inl e => Rejected e
        end) /\
  (forall e,
      fetch (API_BASE +:+ endpoint) (request_call endpoint options).2 = NetworkFailure e ->
      request fetch endpoint options = Rejected e).
Proof.
  unfold request.
  destruct (request_call endpoint options) as [url init] eqn:Hcall.
  assert (url = API_BASE +:+ endpoint) as -> by (unfold request_call in Hcall; congruence).
  cbn. repeat split.
  - intros res Hfetch Hok. rewrite Hfetch, Hok. reflexivity.
  - intros res Hfetch Hok. rewrite Hfetch, Hok. reflexivity.
  - intros e Hfetch. rewrite Hfetch. reflexivity.
Qed.

Lemma request_rejects_non_2xx_witness :
  request fetch_503_unreadable "/chat/" None
  = Rejected (ApiError 503 "API error: 503").
Proof.
  exact (proj1 (request_rejects_non_2xx fetch_503_unreadable "/chat/" None) _
           eq_refl eq_refl).
Defined.

(** C5 (counterexample). The call [api.main()] dispatches neither
    credential header, and a server that requires them turns it down. *)
Lemma api_main_sends_no_credentials :
  dispatched_headers (request_call "/" None) !! "x-api-key" = None /\
  dispatched_headers (request_call "/" None) !! "x-tenant-id" = None /\
  main fetch_checking_credentials = Rejected (ApiError 401 "No API key provided").
Proof. repeat split; reflexivity. Qed.

(** C5 (as amended). [request] adds no credential header: apart from
    [Content-Type], the dispatched headers are the caller's own. The four
    [api] calls that go through [request] dispatch exactly
    [Content-Type: application/json]; the two multipart calls pass no
    [headers] key. The header literal of the guide's templates does hold
    [x-api-key], [x-tenant-id] and [Content-Type]. *)
Theorem client_headers :
  (forall endpoint options,
      delete "Content-Type" (dispatched_headers (request_call endpoint options))
      = delete "Content-Type" (default ∅ (options_headers options))) /\
  Forall (fun call => dispatched_headers call = {[ "Content-Type" := "application/json" ]})
         api_request_calls /\
  (forall file, init_headers (analyzeImage_call file).2 = Absent) /\
  (forall userImage productImages prompt,
      init_headers (generateImage_call userImage productImages prompt).2 = Absent) /\
  (forall API_KEY TENANT_ID,
      Retry.guide_headers API_KEY TENANT_ID !! "x-api-key" = Some API_KEY /\
      Retry.guide_headers API_KEY TENANT_ID !! "x-tenant-id" = Some TENANT_ID /\
      Retry.guide_headers API_KEY TENANT_ID !! "Content-Type" = Some "application/json").
Proof.
  split; [|split; [|split; [|split]]].
  - intros endpoint options. unfold dispatched_headers.
    rewrite request_call_headers.
    destruct options as [o|]; cbn; [destruct (init_headers o) as [|[h|]]; cbn|];
      try reflexivity; by rewrite delete_singleton_eq, delete_empty.
  - unfold api_request_calls. repeat constructor.
  - reflexivity.
  - reflexivity.
  - intros k t. unfold Retry.guide_headers. by simplify_map_eq.
Qed.

(** C8. When the caller's options have a [headers] key, its value is what
    [fetch] receives: the merged object with the default is overwritten by
    the later spread. So a caller's header record without [Content-Type]
    is dispatched as it is, with no [Content-Type]. *)
Theorem request_caller_headers_replace_default
    (endpoint : string) (o : RequestInit) (v : option (gmap string string)) :
  init_headers o = Present v ->
  init_headers (request_call endpoint (Some o)).2 = Present v /\
  forall h : gmap string string,
    v = Some h -> h !! "Content-Type" = None ->
    dispatched_headers (request_call endpoint (Some o)) = h /\
    dispatched_headers (request_call endpoint (Some o)) !! "Content-Type" = None.
Proof.
  intros Hkey.
  assert (init_headers (request_call endpoint (Some o)).2 = Present v) as Hinit
    by (rewrite request_call_headers, Hkey; reflexivity).
  split; [exact Hinit|].
  intros h -> Hct. unfold dispatched_headers. rewrite Hinit. auto.
Qed.

Lemma request_caller_headers_replace_default_witness :
  dispatched_headers (request_call "/products/" (Some options_accept_only))
    = {[ "Accept" := "application/json" ]} /\
  dispatched_headers (request_call "/products/" (Some options_accept_only))
    !! "Content-Type" = None.
Proof.
  exact (proj2 (request_caller_headers_replace_default "/products/"
                  options_accept_only _ eq_refl) _ eq_refl eq_refl).
Defined.

(** Without a [headers] key, and without options, the default is what
    [fetch] receives. *)
Lemma request_default_content_type (endpoint : string) (options : option RequestInit) :
  (options = None \/ exists o, options = Some o /\ init_headers o = Absent) ->
  dispatched_headers (request_call endpoint options)
  = {[ "Content-Type" := "application/json" ]}.
Proof.
  unfold dispatched_headers. rewrite request_call_headers.
  intros [-> | (o & -> & ->)]; reflexivity.
Qed.

(** C10. The form of [generateImage] always has the parts [userImage],
    [productImage1] and [prompt], and it has a [productImage2] part
    exactly when [productImages] has a second element. For a non-empty
    [productImages] no part is built from an out-of-range element: the
    [productImage1] part is the file [productImages[0]], and the
    [productImage2] part, where there is one, is the file
    [productImages[1]] (the read of index 1 is first tested, and its value
    is stored only when it is a file). *)
Theorem generateImage_form_parts
    (userImage : File) (productImages : list File) (prompt : string) :
  let formData := generateImage_form userImage productImages prompt in
  ("userImage" ∈ part_names formData /\
   "productImage1" ∈ part_names formData /\
   "prompt" ∈ part_names formData) /\
  ("productImage2" ∈ part_names formData <-> (1 < length productImages)%nat) /\
  get formData "userImage" = Some (FFile userImage) /\
  get formData "prompt" = Some (FString prompt) /\
  (productImages <> [] ->
   (exists f, productImages !! 0%nat = Some f /\
              get formData "productImage1" = Some (FFile f)) /\
   get formData "productImage2" = FFile <$> productImages !! 1%nat /\
   Forall (fun part => exists f, part.2 = FFile f /\ (f = userImage \/ f ∈ productImages))
          (List.filter (fun part => negb (String.eqb part.1 "prompt")) formData)).
Proof.
  intros formData. subst formData.
  destruct productImages as [|f0 [|f1 rest]];
    unfold generateImage_form, part_names; cbn.
  - split; [set_solver|]. split; [|done].
    split; [|lia]. intros H. exfalso.
    repeat (apply elem_of_cons in H as [H|H]; [discriminate H|]).
    by apply elem_of_nil in H.
  - split; [set_solver|]. split.
    { split; [|lia]. intros H. exfalso.
      repeat (apply elem_of_cons in H as [H|H]; [discriminate H|]).
      by apply elem_of_nil in H. }
    split; [done|]. split; [done|]. intros _.
    split; [by eauto|]. split; [done|].
    rewrite !Forall_cons, Forall_nil. cbn.
    split; [by eauto|]. split; [|done].
    exists f0. split; [done|]. right. set_solver.
  - split; [set_solver|]. split; [split; [lia|set_solver]|].
    split; [done|]. split; [done|]. intros _.
    split; [by eauto|]. split; [done|].
    rewrite !Forall_cons, Forall_nil. cbn.
    split; [by eauto|]. split; [|split; [|done]].
    + exists f0. split; [done|]. right. set_solver.
    + exists f1. split; [done|]. right. set_solver.
Qed.

Lemma generateImage_form_parts_witness :
  (exists f, [selectedFile] !! 0%nat = Some f /\
             get (generateImage_form selectedFile [selectedFile] "Add white blinds")
                 "productImage1" = Some (FFile f)) /\
  get (generateImage_form selectedFile [selectedFile] "Add white blinds")
      "productImage2" = None.
Proof.
  destruct (generateImage_form_parts selectedFile [selectedFile] "Add white blinds")
    as (_ & _ & _ & _ & H).
  destruct H as (H1 & H2 & _); [discriminate|].
  split; [exact H1|exact H2].
Defined.

(** The three named parts are there for any [productImages], and the
    [productImage2] part follows the length; with no product image the
    unguarded read gives [undefined], which [append] stores as a string. *)
Lemma generateImage_form_names (userImage : File) (productImages : list File)
    (prompt : string) :
  part_names (generateImage_form userImage productImages prompt) =
  if bool_decide (1 < length productImages)%nat
  then ["userImage"; "productImage1"; "productImage2"; "prompt"]
  else ["userImage"; "productImage1"; "prompt"].
Proof.
  destruct productImages as [|f0 [|f1 rest]]; reflexivity.
Qed.

Lemma generateImage_form_no_product (userImage : File) (prompt : string) :
  get (generateImage_form userImage [] prompt) "productImage1"
  = Some (FString "undefined").
Proof. reflexivity. Qed.

End FrontendFacts.

Module StreamFacts.
Import Stream.

Lemma append_cons (c : ascii) (s t : string) :
  String c s +:+ t = String c (s +:+ t).
Proof. reflexivity. Qed.

Lemma append_assoc (s t u : string) : (s +:+ t) +:+ u = s +:+ (t +:+ u).
Proof.
  induction s as [|c s IH]; [reflexivity|].
  rewrite !append_cons, IH. reflexivity.
Qed.

Lemma split_line (l rest : string) :
  has_newline l = false ->
  split (l +:+ String nl rest) = l :: split rest.
Proof.
  induction l as [|c l IH]; intros H.
  - change (EmptyString +:+ String nl rest) with (String nl rest).
    cbn [split]. rewrite Ascii.eqb_refl. reflexivity.
  - cbn [has_newline] in H. apply orb_false_iff in H as [Hc Hl].
    rewrite append_cons. cbn [split]. rewrite Hc, (IH Hl). reflexivity.
Qed.

Lemma has_newline_app (s t : string) :
  has_newline (s +:+ t) = has_newline s || has_newline t.
Proof.
  induction s as [|c s IH]; [reflexivity|].
  rewrite append_cons. cbn [has_newline]. rewrite IH. apply orb_assoc.
Qed.

Lemma split_frame (payload rest : string) :
  has_newline payload = false ->
  split (frame payload +:+ rest)
  = ("data: " +:+ payload) :: EmptyString :: split rest.
Proof.
  intros H. unfold frame.
  replace (("data: " +:+ payload +:+ String nl (String nl EmptyString)) +:+ rest)
    with (("data: " +:+ payload) +:+ String nl (String nl rest))
    by (rewrite !append_assoc; reflexivity).
  rewrite split_line by (rewrite has_newline_app, H; reflexivity).
  cbn [split]. rewrite Ascii.eqb_refl. reflexivity.
Qed.

Section Decoder.
Variable JSON_parse : string -> js_error + json.

Lemma for_lines_frames (payloads : list string) (out : list output) :
  Forall (fun p => has_newline p = false) payloads ->
  for_lines JSON_parse (split (frames payloads)) out
  = emit_frames JSON_parse payloads out.
Proof.
  intros H. revert out.
  induction H as [|p ps Hp Hps IH]; intros out; [reflexivity|].
  cbn [frames foldr]. change (foldr _ EmptyString ps) with (frames ps).
  rewrite split_frame by exact Hp.
  cbn [for_lines emit_frames]. change (startsWith_data ("data: " +:+ p)) with (String.prefix "" p).
  replace (String.prefix "" p) with true by (destruct p; reflexivity).
  change (slice 6 ("data: " +:+ p)) with p.
  destruct (on_payload JSON_parse p) as [e|o]; [reflexivity|].
  change (startsWith_data EmptyString) with false. cbn match.
  apply IH.
Qed.

Lemma emit_frames_app (ps qs : list string) (out : list output) :
  emit_frames JSON_parse (ps ++ qs) out =
  match emit_frames JSON_parse ps out with
  | (out', None) => emit_frames JSON_parse qs out'
  | (out', Some e) => (out', Some e)
  end.
Proof.
  revert out. induction ps as [|p ps IH]; intros out; cbn; [reflexivity|].
  destruct (on_payload JSON_parse p); [reflexivity|apply IH].
Qed.

Lemma while_reads_frames (reads : list (list string)) (out : list output) :
  Forall (Forall (fun p => has_newline p = false)) reads ->
  while_reads JSON_parse (frames <$> reads) out
  = emit_frames JSON_parse (concat reads) out.
Proof.
  intros H. revert out.
  induction H as [|ps reads Hps Hreads IH]; intros out; [reflexivity|].
  cbn [fmap list_fmap while_reads concat].
  rewrite for_lines_frames by exact Hps.
  rewrite emit_frames_app.
  destruct (emit_frames JSON_parse ps out) as [out' [e|]]; [reflexivity|].
  apply IH.
Qed.
End Decoder.

(** C4 (as amended). The decoder carries nothing but its outputs from
    one network read to the next: a stream of reads is decoded as its first
    part and then, had no error been thrown, its second part. When every
    network read holds whole frames only, the decoder handles each frame
    exactly once, in arrival order: the outputs are those of one event per
    frame, with no partial and no duplicate event. *)
Theorem streamChat_whole_frames (JSON_parse : string -> js_error + json) :
  (forall (chunks1 chunks2 : list string) (out : list output),
      while_reads JSON_parse (chunks1 ++ chunks2) out =
      match while_reads JSON_parse chunks1 out with
      | (out', None) => while_reads JSON_parse chunks2 out'
      | (out', Some e) => (out', Some e)
      end) /\
  (forall reads : list (list string),
      Forall (Forall (fun payload => has_newline payload = false)) reads ->
      streamChat JSON_parse (frames <$> reads)
      = emit_frames JSON_parse (concat reads) []).
Proof.
  split.
  - intros chunks1 chunks2. induction chunks1 as [|c cs IH]; intros out; [reflexivity|].
    cbn [app while_reads].
    destruct (for_lines JSON_parse (split c) out) as [out' [e|]]; [reflexivity|].
    apply IH.
  - intros reads. apply while_reads_frames.
Qed.

Lemma streamChat_whole_frames_witness :
  streamChat (parse_sample "Hi")
    (frames <$> [[chunk_payload "Hi"]; [chunk_payload "Hi"; end_payload]])
  = emit_frames (parse_sample "Hi")
      (concat [[chunk_payload "Hi"]; [chunk_payload "Hi"; end_payload]]) [].
Proof.
  apply (proj2 (streamChat_whole_frames (parse_sample "Hi"))
           [[chunk_payload "Hi"]; [chunk_payload "Hi"; end_payload]]).
  repeat constructor.
Defined.

(** The run of the witness: two chunks of text written, then the end. *)
Example streamChat_two_reads :
  streamChat (parse_sample "Hi")
    (frames <$> [[chunk_payload "Hi"]; [chunk_payload "Hi"; end_payload]])
  = ([StdoutWrite "Hi"; StdoutWrite "Hi";
      ConsoleLog (String nl "[Stream ended]")], None).
Proof. reflexivity. Qed.

(** C4 (counterexample). Nothing is buffered between reads. A frame cut
    inside its [data: ] prefix gives no event at all, whatever the parser:
    neither piece starts with [data: ]. A frame cut inside its payload
    hands the first piece to the parser on its own, and the [SyntaxError]
    ends the stream before the second read. The same frame in one read
    gives its one event. *)
Lemma streamChat_split_frame :
  String.concat "" cut_in_prefix = frame end_payload /\
  String.concat "" cut_in_payload = frame end_payload /\
  (forall JSON_parse, streamChat JSON_parse cut_in_prefix = ([], None)) /\
  (forall JSON_parse e,
      JSON_parse ("{" +:+ String dquote "ty") = inl e ->
      streamChat JSON_parse cut_in_payload = ([], Some e)) /\
  streamChat (parse_sample "") cut_in_payload
  = ([], Some (SyntaxError "Unexpected end of JSON input")) /\
  streamChat (parse_sample "") [frame end_payload]
  = ([ConsoleLog (String nl "[Stream ended]")], None).
Proof.
  split; [reflexivity|]. split; [reflexivity|].
  split; [intros; reflexivity|].
  split; [|split; reflexivity].
  intros JSON_parse e He.
  unfold streamChat, cut_in_payload. cbn [while_reads].
  change (split ("data: {" +:+ String dquote "ty"))
    with ["data: {" +:+ String dquote "ty"].
  cbn [for_lines].
  change (startsWith_data ("data: {" +:+ String dquote "ty")) with true.
  cbn match.
  change (slice 6 ("data: {" +:+ String dquote "ty"))
    with ("{" +:+ String dquote "ty").
  unfold on_payload. rewrite He. reflexivity.
Qed.

End StreamFacts.

Module WorkerFacts.
Import Worker.

Example app_route_table :
  route_table (app offline) =
  [("GET", "/api/products/"); ("GET", "/api/discovery/"); ("GET", "/api/chat/");
   ("POST", "/api/nano-banana/generate"); ("GET", "/api/")].
Proof. reflexivity. Qed.

Example app_initial_route_table :
  route_table app_initial =
  [("GET", "/api/products/"); ("GET", "/api/discovery/"); ("GET", "/api/chat/");
   ("GET", "/api/")].
Proof. reflexivity. Qed.

(** C7 (counterexample). The worker answers [GET /health] with the
    framework's 404, not with the JSON body [{status: "ok"}]. *)
Lemma health_is_not_found :
  hono_fetch (app offline) "GET" "/health" bare_request []
  = (inr {| res_status := 404; body := Text "404 Not Found" |}, []) /\
  hono_fetch (app offline) "GET" "/health" bare_request []
  <> (inr (c_json_ok (JObject [("status", JString "ok")])), []).
Proof. split; [reflexivity|discriminate]. Qed.

(** C7 (as amended). Neither version of the worker registers a
    [/health] route: [GET /health] gets the default 404 answer with no
    effect, whatever the request carries and whatever the services do.
    The unauthenticated JSON endpoint the worker has is [GET /api/], which
    answers [{name: "Goto Demo API"}]. *)
Theorem health_route_absent (services : Services) (c : Context) (tr : list effect) :
  hono_fetch (app services) "GET" "/health" c tr = (inr notFound, tr) /\
  hono_fetch app_initial "GET" "/health" c tr = (inr notFound, tr) /\
  hono_fetch (app services) "GET" "/api/" c tr
  = (inr (c_json_ok (JObject [("name", JString "Goto Demo API")])), tr) /\
  hono_fetch app_initial "GET" "/api/" c tr
  = (inr (c_json_ok (JObject [("name", JString "Goto Demo API")])), tr).
Proof. repeat split; reflexivity. Qed.

(** What the two handlers answer, by cases: they always answer, with a
    200, with a one-field error of status 400 or 500, or from the
    [catch] clause. *)
Lemma generate_answers (services : Services) (c : Context) (tr : list effect) :
  exists resp tr',
    generate services c tr = (inr resp, tr') /\
    (res_status resp = 200 \/
     (exists message, resp = c_json (error_body message) 400 /\ tr' = tr) \/
     (exists message, resp = c_json (error_body message) 500) \/
     (exists e tr0,
         generate_try services c tr = (inl e, tr0) /\
         tr' = tr0 ++ [ConsoleErrorLog "Nano Banana API error:" e] /\
         resp = c_json (JObject [("error", JString "Failed to generate image");
                                 ("details", JString (message_of e))]) 500)).
Proof.
  unfold generate, try_catch, generate_try, generate_catch, bind, await, emit, ret.
  repeat case_match; simplify_eq; eauto 12.
Qed.

Lemma analyze_answers (services : Services)
    (JSON_parse : string -> js_error + json) (c : Context) (tr : list effect) :
  exists resp tr',
    analyze services JSON_parse c tr = (inr resp, tr') /\
    (res_status resp = 200 \/
     (exists message, resp = c_json (error_body message) 400 /\ tr' = tr) \/
     (exists message, resp = c_json (error_body message) 500) \/
     (exists e tr0,
         analyze_try services JSON_parse c tr = (inl e, tr0) /\
         tr' = tr0 ++ [ConsoleErrorLog "Vision API error:" e] /\
         resp = c_json (JObject [("error", JString "Failed to analyze image");
                                 ("details", JString (message_of e))]) 500)).
Proof.
  unfold analyze, try_catch, analyze_try, analyze_catch, bind, await, emit, ret.
  repeat case_match; simplify_eq; eauto 12.
Qed.

(** C6 (counterexample). A request whose form cannot be parsed reaches
    the [catch] clause of [POST /generate]: the 500 body has a [details]
    field beside [error], so it has neither of the two listed shapes. *)
Lemma catch_body_has_details :
  generate offline bare_request []
  = (inr generate_failed, [ConsoleErrorLog "Nano Banana API error:" not_a_form]) /\
  res_status generate_failed = 500 /\
  ~ shape_error_string (body generate_failed) /\
  ~ shape_error_object (body generate_failed).
Proof.
  split; [reflexivity|]. split; [reflexivity|]. split.
  - intros [m H]. discriminate H.
  - intros (st & code & m & H). discriminate H.
Qed.

(** C6 (as amended). Every error answer of the two handlers is a JSON
    object whose [error] field is a string: either that field alone, or,
    from the [catch] clause, with a sibling string field [details] and
    status 500. No handler builds the nested
    [{error: {status, code, message}}] shape. *)
Theorem error_response_bodies (services : Services)
    (JSON_parse : string -> js_error + json)
    (c : Context) (tr : list effect) (resp : HonoResponse) (tr' : list effect) :
  generate services c tr = (inr resp, tr') \/
  analyze services JSON_parse c tr = (inr resp, tr') ->
  res_status resp <> 200 ->
  ((shape_error_string (body resp) /\
    (res_status resp = 400 \/ res_status resp = 500)) \/
   (shape_error_details (body resp) /\ res_status resp = 500)) /\
  ~ shape_error_object (body resp).
Proof.
  intros Hrun Hst.
  assert (res_status resp = 200 \/
          (exists message st, resp = c_json (error_body message) st /\
                              (st = 400 \/ st = 500)) \/
          (exists message details,
              resp = c_json (JObject [("error", JString message);
                                      ("details", JString details)]) 500))
    as Hcases.
  { destruct Hrun as [Hrun|Hrun].
    - destruct (generate_answers services c tr) as (r & t & Hr & Hc).
      rewrite Hr in Hrun. simplify_eq.
      destruct Hc as [?|[(m & -> & _)|[(m & ->)|(e & t0 & _ & _ & ->)]]]; eauto 8.
    - destruct (analyze_answers services JSON_parse c tr) as (r & t & Hr & Hc).
      rewrite Hr in Hrun. simplify_eq.
      destruct Hc as [?|[(m & -> & _)|[(m & ->)|(e & t0 & _ & _ & ->)]]]; eauto 8. }
  destruct Hcases as [?|[(m & st & -> & Hs)|(m & d & ->)]]; [done| |]; cbn.
  - split; [left; split; [by exists m|exact Hs]|].
    intros (st' & code & m' & H). discriminate H.
  - split; [right; split; [by exists m, d|reflexivity]|].
    intros (st' & code & m' & H). discriminate H.
Qed.

Lemma error_response_bodies_witness :
  ((shape_error_string (body generate_failed) /\
    (res_status generate_failed = 400 \/ res_status generate_failed = 500)) \/
   (shape_error_details (body generate_failed) /\ res_status generate_failed = 500)) /\
  ~ shape_error_object (body generate_failed).
Proof.
  apply (error_response_bodies offline (fun _ => inr JNull) bare_request []
           generate_failed [ConsoleErrorLog "Nano Banana API error:" not_a_form]).
  - left. reflexivity.
  - discriminate.
Defined.

(** C9 (counterexample). A form with both images and a prompt that is the
    empty string has a string prompt; with [GEMINI_API_KEY] unset the
    statement calls for the 500 of the missing key, and the handler
    answers the 400 of the missing prompt. *)
Lemma generate_empty_prompt :
  is_file (get (form_with_prompt EmptyString) "userImage") = true /\
  is_file (get (form_with_prompt EmptyString) "productImage1") = true /\
  is_string_entry (get (form_with_prompt EmptyString) "prompt") = true /\
  GEMINI_API_KEY (env (request_with_prompt EmptyString)) = None /\
  generate offline (request_with_prompt EmptyString) []
  = (inr (c_json (error_body "Prompt text is required") 400), []) /\
  generate offline (request_with_prompt EmptyString) []
  <> (inr (c_json (error_body "Gemini API key not configured") 500), []).
Proof. repeat split; try reflexivity. discriminate. Qed.

(** C9 (as amended). [POST /generate] decides its four local errors in
    order and before any call of the image model (the trace is left as it
    was): no [userImage] file, 400; else no [productImage1] file, 400; else
    no non-empty string [prompt], 400; else [GEMINI_API_KEY] unset (or
    empty), 500. It always answers: whatever is thrown inside the [try]
    block is logged and answered with status 500 and a JSON body that has
    an [error] field. *)
Theorem generate_validation_order (services : Services) (c : Context)
    (tr : list effect) :
  (forall formData,
      req_formData c = inr formData ->
      (is_file (get formData "userImage") = false ->
       generate services c tr
       = (inr (c_json (error_body "User image is required") 400), tr)) /\
      (is_file (get formData "userImage") = true ->
       is_file (get formData "productImage1") = false ->
       generate services c tr
       = (inr (c_json (error_body "At least one product image is required") 400), tr)) /\
      (is_file (get formData "userImage") = true ->
       is_file (get formData "productImage1") = true ->
       is_nonempty_string (get formData "prompt") = false ->
       generate services c tr
       = (inr (c_json (error_body "Prompt text is required") 400), tr)) /\
      (is_file (get formData "userImage") = true ->
       is_file (get formData "productImage1") = true ->
       is_nonempty_string (get formData "prompt") = true ->
       unset_or_empty (GEMINI_API_KEY (env c)) = true ->
       generate services c tr
       = (inr (c_json (error_body "Gemini API key not configured") 500), tr))) /\
  (exists resp tr', generate services c tr = (inr resp, tr')) /\
  (forall e tr0,
      generate_try services c tr = (inl e, tr0) ->
      generate services c tr
      = (inr (c_json (JObject [("error", JString "Failed to generate image");
                               ("details", JString (message_of e))]) 500),
         tr0 ++ [ConsoleErrorLog "Nano Banana API error:" e])).
Proof.
  split; [|split].
  - intros formData Hform.
    unfold generate, try_catch, generate_try, bind, await, ret. rewrite Hform.
    unfold is_file, is_nonempty_string, unset_or_empty.
    destruct (get formData "userImage") as [[u|?]|];
      destruct (get formData "productImage1") as [[p1|?]|];
      destruct (get formData "prompt") as [[?|prompt]|];
      repeat split; intros; try discriminate; try reflexivity;
      try (destruct (String.eqb prompt EmptyString); try discriminate; try reflexivity);
      destruct (GEMINI_API_KEY (env c)) as [k|]; try reflexivity;
      destruct (String.eqb k EmptyString); try discriminate; reflexivity.
  - destruct (generate_answers services c tr) as (resp & tr' & H & _). eauto.
  - intros e tr0 He.
    unfold generate, try_catch. rewrite He. reflexivity.
Qed.

Lemma generate_validation_order_witness :
  generate offline (request_with_prompt "Add white blinds to the windows") []
  = (inr (c_json (error_body "Gemini API key not configured") 500), []).
Proof.
  destruct (generate_validation_order offline
              (request_with_prompt "Add white blinds to the windows") [])
    as [H _].
  destruct (H _ eq_refl) as (_ & _ & _ & Hkey).
  apply Hkey; reflexivity.
Defined.

End WorkerFacts.

(** * Further properties of the guide's templates *)

Module RetryMore.
Import Retry Observe.

Section Facts.
Variables (BASE_URL API_KEY TENANT_ID : string).
Variables (endpoint : string) (body : json).

Local Abbreviation run := (makeRequest BASE_URL API_KEY TENANT_ID endpoint body).
Local Abbreviation F := (the_fetch BASE_URL API_KEY TENANT_ID endpoint body).

(** The run as a function of how the first three [try] blocks leave. *)
Lemma makeRequest_by_cases (w : World) :
  run w =
  match try_block (w 0%nat) with
  | TryReturn v => Some (Return v, [F])
  | _ =>
      match try_block (w 1%nat) with
      | TryReturn v => Some (Return v, [F; ESleep 2000; F])
      | _ =>
          match try_block (w 2%nat) with
          | TryReturn v => Some (Return v, [F; ESleep 2000; F; ESleep 4000; F])
          | TryContinue =>
              Some (ReturnUndefined,
                    [F; ESleep 2000; F; ESleep 4000; F; ESleep 8000])
          | TryThrow e => Some (Throw e, [F; ESleep 2000; F; ESleep 4000; F])
          end
      end
  end.
Proof.
  unfold makeRequest. cbn [loop].
  change (0 <? maxRetries) with true. cbn match.
  destruct (try_block (w 0%nat)); cbn; try reflexivity;
    destruct (try_block (w 1%nat)); cbn; try reflexivity;
    destruct (try_block (w 2%nat)); reflexivity.
Qed.

(** X1. [makeRequest] never rethrows before its third attempt: whenever
    it throws, [fetch] was called three times, with sleeps of 2000 and
    4000 ms in between, and what is thrown is what the third [try] block
    threw. *)
Theorem makeRequest_throws_on_third_attempt
    (w : World) (e : thrown) (tr : list event) :
  run w = Some (Throw e, tr) ->
  tr = [F; ESleep 2000; F; ESleep 4000; F] /\
  attempts tr = 3%nat /\
  try_block (w 2%nat) = TryThrow e /\
  (forall n v, (n < 3)%nat -> try_block (w n) <> TryReturn v).
Proof.
  rewrite makeRequest_by_cases.
  destruct (try_block (w 0%nat)) eqn:E0; try discriminate;
    destruct (try_block (w 1%nat)) eqn:E1; try discriminate;
    destruct (try_block (w 2%nat)) eqn:E2; try discriminate;
    intros H; injection H as <- <-;
    (split; [reflexivity|]); (split; [reflexivity|]); (split; [reflexivity|]);
    intros [|[|[|n]]] v Hn; try lia; congruence.
Qed.

(** X2. When [makeRequest] returns a value, that value is the parsed
    body of the first attempt whose [try] block did not fail; the attempts
    before it all failed, each followed by its back-off sleep, and no
    attempt was made after it. *)
Theorem makeRequest_returns_first_success
    (w : World) (v : json) (tr : list event) :
  run w = Some (Return v, tr) ->
  exists n : nat,
    (n < 3)%nat /\
    try_block (w n) = TryReturn v /\
    (forall m v', (m < n)%nat -> try_block (w m) <> TryReturn v') /\
    attempts tr = S n /\
    sleeps tr = take n [2000; 4000].
Proof.
  rewrite makeRequest_by_cases.
  destruct (try_block (w 0%nat)) eqn:E0; try discriminate;
    [intros H; injection H as <- <-; exists 0%nat;
     repeat split; try lia; try assumption; intros; lia| |];
    (destruct (try_block (w 1%nat)) eqn:E1; try discriminate;
     [intros H; injection H as <- <-; exists 1%nat;
      repeat split; try lia; try assumption;
      intros [|m] v' Hm; [congruence|lia]| |]);
    (destruct (try_block (w 2%nat)) eqn:E2; try discriminate;
     intros H; injection H as <- <-; exists 2%nat;
     repeat split; try lia; try assumption;
     intros [|[|m]] v' Hm; try lia; congruence).
Qed.

(** X3. Three answers of the 5xx class exhaust the loop without an
    error: the promise resolves with [undefined], after three attempts and
    14000 ms of sleep, the last 8000 ms of them after the last attempt. *)
Theorem makeRequest_server_errors_resolve_undefined (w : World) :
  (forall n, (n < 3)%nat -> server_error (w n)) ->
  run w = Some (ReturnUndefined,
                [F; ESleep 2000; F; ESleep 4000; F; ESleep 8000]) /\
  total_sleep [F; ESleep 2000; F; ESleep 4000; F; ESleep 8000] = 14000.
Proof.
  intros H. split; [|reflexivity].
  assert (forall n, (n < 3)%nat -> try_block (w n) = TryContinue) as Hc.
  { intros n Hn. destruct (H n Hn) as (r & -> & Hr).
    unfold try_block, ok.
    replace (status r <=? 299) with false by (symmetry; apply Z.leb_gt; lia).
    rewrite andb_false_r. cbn.
    replace (status r >=? 500) with true by (symmetry; apply Z.geb_le; lia).
    reflexivity. }
  rewrite makeRequest_by_cases, !Hc by lia. reflexivity.
Qed.

(** X4. Every run ends, after at most three attempts and at most
    14000 ms of sleep; a run that returns a value or throws has slept at
    most 6000 ms. *)
Theorem makeRequest_sleep_bound (w : World) :
  exists c tr,
    run w = Some (c, tr) /\
    (attempts tr <= 3)%nat /\
    0 <= total_sleep tr <= 14000 /\
    (c <> ReturnUndefined -> total_sleep tr <= 6000).
Proof.
  rewrite makeRequest_by_cases.
  destruct (try_block (w 0%nat)); [eexists _, _; split; [reflexivity|];
    cbn; repeat split; try lia; intros; lia| |];
    (destruct (try_block (w 1%nat)); [eexists _, _; split; [reflexivity|];
      cbn; repeat split; try lia; intros; lia| |]);
    (destruct (try_block (w 2%nat)); eexists _, _; (split; [reflexivity|]);
      cbn; repeat split; try lia; intros; try lia; congruence).
Qed.
End Facts.

Lemma makeRequest_throws_on_third_attempt_witness :
  try_block (always 401 JNull 2%nat)
  = TryThrow (NewError (JString "Authentication failed")) /\
  (forall n v, (n < 3)%nat -> try_block (always 401 JNull n) <> TryReturn v).
Proof.
  destruct (makeRequest_throws_on_third_attempt
              "https://your-server-domain.com" "tk_abc123" "my-tenant-id"
              "/api/discovery" (JObject [("query", JString "modern glass doors")])
              (always 401 JNull) (NewError (JString "Authentication failed")) _
              eq_refl) as (_ & _ & H3 & Hn).
  split; [exact H3|exact Hn].
Defined.

Lemma makeRequest_returns_first_success_witness :
  exists n : nat,
    (n < 3)%nat /\
    try_block (flaky n) = TryReturn (JObject [("items", JArray [])]) /\
    (forall m v', (m < n)%nat -> try_block (flaky m) <> TryReturn v').
Proof.
  destruct (makeRequest_returns_first_success
              "https://your-server-domain.com" "tk_abc123" "my-tenant-id"
              "/api/discovery" (JObject [("query", JString "modern glass doors")])
              flaky (JObject [("items", JArray [])]) _ eq_refl)
    as (n & Hn & Hv & Hm & _).
  exists n. split; [exact Hn|]. split; [exact Hv|exact Hm].
Defined.

Lemma makeRequest_server_errors_resolve_undefined_witness :
  exists tr, discovery_run (always 503 JNull) = Some (ReturnUndefined, tr).
Proof.
  eexists.
  apply (makeRequest_server_errors_resolve_undefined
           "https://your-server-domain.com" "tk_abc123" "my-tenant-id"
           "/api/discovery" (JObject [("query", JString "modern glass doors")])
           (always 503 JNull)).
  intros n _. eexists. split; [reflexivity|]. cbn. lia.
Defined.

End RetryMore.

Module StreamMore.
Import Stream Observe.

(** [split] always gives a first piece. *)
Lemma split_first (t : string) : exists l ls, split t = l :: ls.
Proof.
  destruct t as [|c t]; cbn [split]; [by eauto|].
  destruct (Ascii.eqb c nl); [by eauto|].
  destruct (split t); eauto.
Qed.

(** Splitting at a line feed: the lines before it, then the lines after. *)
Lemma split_at_line_feed (t s : string) :
  split (t +:+ String nl s) = split t ++ split s.
Proof.
  induction t as [|c t IH].
  - change (EmptyString +:+ String nl s) with (String nl s).
    cbn [split]. rewrite Ascii.eqb_refl. reflexivity.
  - rewrite StreamFacts.append_cons. cbn [split]. rewrite IH.
    destruct (Ascii.eqb c nl); [reflexivity|].
    destruct (split_first t) as (l & ls & ->). reflexivity.
Qed.

Section Decoder.
Variable JSON_parse : string -> js_error + json.

Lemma for_lines_app (l1 l2 : list string) (out : list output) :
  for_lines JSON_parse (l1 ++ l2) out =
  match for_lines JSON_parse l1 out with
  | (out', None) => for_lines JSON_parse l2 out'
  | (out', Some e) => (out', Some e)
  end.
Proof.
  revert out. induction l1 as [|l l1 IH]; intros out; [reflexivity|].
  cbn [app for_lines].
  destruct (startsWith_data l); [|apply IH].
  destruct (on_payload JSON_parse (slice 6 l)); [reflexivity|apply IH].
Qed.

(** A read that ends with a line feed leaves nothing open: it decodes
    like its lines without the empty piece after the last line feed. *)
Lemma for_lines_line_ended (t : string) (out : list output) :
  for_lines JSON_parse (split (line_ended t)) out
  = for_lines JSON_parse (split t) out.
Proof.
  unfold line_ended. rewrite split_at_line_feed, for_lines_app.
  destruct (for_lines JSON_parse (split t) out) as [out' [e|]]; reflexivity.
Qed.

Lemma while_reads_merge (t s : string) (rest : list string) (out : list output) :
  while_reads JSON_parse (line_ended t :: s :: rest) out
  = while_reads JSON_parse ((line_ended t +:+ s) :: rest) out.
Proof.
  cbn [while_reads]. rewrite for_lines_line_ended.
  unfold line_ended. rewrite StreamFacts.append_assoc.
  change (String nl EmptyString +:+ s) with (String nl s).
  rewrite split_at_line_feed, for_lines_app.
  destruct (for_lines JSON_parse (split t) out) as [out' [e|]]; reflexivity.
Qed.

(** X5. Cutting the stream right after a line feed never changes what
    [streamChat] does: reads that each end with a line feed give the
    outputs, and the error if one is thrown, of their concatenation
    delivered in one read. *)
Theorem streamChat_cut_after_line_feed (ts : list string) :
  streamChat JSON_parse (line_ended <$> ts)
  = streamChat JSON_parse [String.concat EmptyString (line_ended <$> ts)].
Proof.
  unfold streamChat. generalize (@nil output) as out.
  induction ts as [|t ts IH]; intros out; [reflexivity|].
  destruct ts as [|t' ts].
  - reflexivity.
  - change (line_ended <$> t :: t' :: ts)
      with (line_ended t :: line_ended t' :: (line_ended <$> ts)).
    change (String.concat EmptyString
              (line_ended t :: line_ended t' :: (line_ended <$> ts)))
      with (line_ended t +:+
            String.concat EmptyString (line_ended <$> (t' :: ts))).
    rewrite <- while_reads_merge.
    cbn [while_reads] in *. rewrite for_lines_line_ended.
    destruct (for_lines JSON_parse (split t) out) as [out' [e|]]; [reflexivity|].
    apply IH.
Qed.
End Decoder.

End StreamMore.

Module CatalogFacts.
Import Catalog.

Lemma optional_keys (k : string) (v : option string) :
  (optional k v).*1 = [] \/ (optional k v).*1 = [k].
Proof.
  unfold optional. destruct v as [v|]; [|by left].
  destruct (String.eqb v EmptyString); [by left|by right].
Qed.

Lemma optional_values (k : string) (v : option string) :
  Forall (fun kv => kv.2 <> EmptyString) (optional k v).
Proof.
  unfold optional. destruct v as [v|]; [|constructor].
  destruct (String.eqb v EmptyString) eqn:E; constructor; [|constructor].
  cbn. by apply String.eqb_neq.
Qed.





End CatalogFacts.

(** * Further properties of the worker *)

Module WorkerMore.
Import Worker Observe.

Lemma string_or_nonempty (s d : string) :
  d <> EmptyString -> string_or s d <> EmptyString.
Proof.
  intros Hd. unfold string_or.
  destruct (String.eqb s EmptyString) eqn:E; [exact Hd|]. by apply String.eqb_neq.
Qed.

Lemma option_string_or_nonempty (s : option string) (d : string) :
  d <> EmptyString -> option_string_or s d <> EmptyString.
Proof.
  intros Hd. destruct s as [s|]; [by apply string_or_nonempty|exact Hd].
Qed.

Lemma find_image_nonempty (ps : list Part) (data mimeType : string) :
  find_image ps = Some (data, mimeType) ->
  data <> EmptyString /\ mimeType <> EmptyString.
Proof.
  induction ps as [|part ps IH]; [discriminate|].
  cbn [find_image].
  destruct (inlineData part) as [blob|]; [|exact IH].
  destruct (blob_data blob) as [d|]; [|exact IH].
  destruct (String.eqb d EmptyString) eqn:Ee; cbn [negb]; [exact IH|].
  intros H. injection H as <- <-. apply String.eqb_neq in Ee.
  split; [exact Ee|by apply option_string_or_nonempty].
Qed.

(** X10. The loop over the parts of the model's answer stops at the
    first part that carries image data: it gives that part's data, which
    is not empty, with its media type or [image/png] when the part names
    none, and every part before it carries no image data. It finds nothing
    exactly when no part carries image data. *)
Theorem find_image_first (ps : list Part) :
  match find_image ps with
  | Some (data, mimeType) =>
      data <> EmptyString /\ mimeType <> EmptyString /\
      exists before part after blob,
        ps = before ++ part :: after /\
        Forall no_image before /\
        inlineData part = Some blob /\
        blob_data blob = Some data /\
        mimeType = option_string_or (blob_mimeType blob) "image/png"
  | None => Forall no_image ps
  end.
Proof.
  induction ps as [|part ps IH]; [constructor|].
  cbn [find_image].
  destruct (inlineData part) as [blob|] eqn:Ei.
  - destruct (blob_data blob) as [data|] eqn:Ed.
    + destruct (String.eqb data EmptyString) eqn:Ee; cbn [negb].
      * apply String.eqb_eq in Ee.
        destruct (find_image ps) as [[d m]|].
        -- destruct IH as (Hd & Hm & before & p & after & b & -> & Hb & H1 & H2 & H3).
           split; [exact Hd|]. split; [exact Hm|].
           exists (part :: before), p, after, b. repeat split; try assumption.
           constructor; [|exact Hb]. unfold no_image. by rewrite Ei, Ed.
        -- constructor; [|exact IH]. unfold no_image. by rewrite Ei, Ed.
      * apply String.eqb_neq in Ee.
        split; [exact Ee|]. split; [by apply option_string_or_nonempty|].
        exists [], part, ps, blob. repeat split; try assumption. constructor.
    + destruct (find_image ps) as [[d m]|].
      * destruct IH as (Hd & Hm & before & p & after & b & -> & Hb & H1 & H2 & H3).
        split; [exact Hd|]. split; [exact Hm|].
        exists (part :: before), p, after, b. repeat split; try assumption.
        constructor; [|exact Hb]. unfold no_image. by rewrite Ei, Ed.
      * constructor; [|exact IH]. unfold no_image. by rewrite Ei, Ed.
  - destruct (find_image ps) as [[d m]|].
    + destruct IH as (Hd & Hm & before & p & after & b & -> & Hb & H1 & H2 & H3).
      split; [exact Hd|]. split; [exact Hm|].
      exists (part :: before), p, after, b. repeat split; try assumption.
      constructor; [|exact Hb]. unfold no_image. by rewrite Ei.
    + constructor; [|exact IH]. unfold no_image. by rewrite Ei.
Qed.

Section Generate.
Variable services : Services.

(** The contents the handler sends for a form that passed its tests. *)
Local Abbreviation contents_of formData userImage productImage1 prompt :=
  (match get formData "productImage2" with
   | Some (FFile productImage2) =>
       [InlineData (string_or (file_type userImage) "image/jpeg")
                   (toString_base64 userImage);
        InlineData (string_or (file_type productImage1) "image/jpeg")
                   (toString_base64 productImage1)] ++
       [InlineData (string_or (file_type productImage2) "image/jpeg")
                   (toString_base64 productImage2)]
   | _ =>
       [InlineData (string_or (file_type userImage) "image/jpeg")
                   (toString_base64 userImage);
        InlineData (string_or (file_type productImage1) "image/jpeg")
                   (toString_base64 productImage1)]
   end ++ [TextPart prompt]).

(** The three ways [POST /generate] runs: a local answer with no
    effect, a form that cannot be read, or one call of the image model. *)
Lemma generate_runs (c : Context) (tr : list effect) :
  (exists message st,
      generate services c tr = (inr (c_json (error_body message) st), tr) /\
      (st = 400 \/ st = 500)) \/
  (exists e,
      req_formData c = inl e /\
      generate services c tr
      = (inr (c_json (JObject [("error", JString "Failed to generate image");
                               ("details", JString (message_of e))]) 500),
         tr ++ [ConsoleErrorLog "Nano Banana API error:" e])) \/
  (exists formData userImage productImage1 prompt apiKey,
      req_formData c = inr formData /\
      get formData "userImage" = Some (FFile userImage) /\
      get formData "productImage1" = Some (FFile productImage1) /\
      get formData "prompt" = Some (FString prompt) /\
      prompt <> EmptyString /\
      GEMINI_API_KEY (env c) = Some apiKey /\
      apiKey <> EmptyString /\
      match generateContent services apiKey "gemini-2.5-flash-image"
              (contents_of formData userImage productImage1 prompt) with
      | inl e =>
          generate services c tr
          = (inr (c_json (JObject [("error", JString "Failed to generate image");
                                   ("details", JString (message_of e))]) 500),
             tr ++ [GeminiCall apiKey "gemini-2.5-flash-image"
                      (contents_of formData userImage productImage1 prompt);
                    ConsoleErrorLog "Nano Banana API error:" e])
      | inr response =>
          generate services c tr
          = (inr match first_parts response with
                 | None => c_json (error_body "No image generated in response") 500
                 | Some ps =>
                     match find_image ps with
                     | None => c_json (error_body "No image data found in response") 500
                     | Some (data, mimeType) =>
                         c_json_ok (JObject [("generatedImage", JString data);
                                             ("mimeType", JString mimeType)])
                     end
                 end,
             tr ++ [GeminiCall apiKey "gemini-2.5-flash-image"
                      (contents_of formData userImage productImage1 prompt)])
      end).
Proof.
  unfold generate, try_catch, generate_try, generate_catch, bind, await, emit, ret.
  destruct (req_formData c) as [e|fd] eqn:Hfd; [right; left; by eauto|].
  destruct (get fd "userImage") as [[u|?]|] eqn:Hu; [|left; by eauto 6..].
  destruct (get fd "productImage1") as [[p1|?]|] eqn:Hp1; [|left; by eauto 6..].
  destruct (get fd "prompt") as [[?|prompt]|] eqn:Hp; [left; by eauto 6| |left; by eauto 6].
  destruct (String.eqb prompt EmptyString) eqn:Ep; [left; by eauto 6|].
  apply String.eqb_neq in Ep.
  destruct (GEMINI_API_KEY (env c)) as [k|] eqn:Hk; [|left; by eauto 6].
  destruct (String.eqb k EmptyString) eqn:Ek; [left; by eauto 6|].
  apply String.eqb_neq in Ek.
  right; right. exists fd, u, p1, prompt, k.
  repeat (split; [done|]).
  destruct (generateContent services k "gemini-2.5-flash-image" _) as [e|response].
  - rewrite <- app_assoc. reflexivity.
  - destruct (first_parts response) as [ps|]; [|reflexivity].
    destruct (find_image ps) as [[d m]|]; reflexivity.
Qed.

Lemma generate_ok_body
    (c : Context) (tr : list effect) (resp : HonoResponse) (tr' : list effect) :
  generate services c tr = (inr resp, tr') ->
  res_status resp = 200 ->
  exists data mimeType,
    body resp = Json (JObject [("generatedImage", JString data);
                               ("mimeType", JString mimeType)]) /\
    data <> EmptyString /\ mimeType <> EmptyString.
Proof.
  intros Hrun Hst.
  destruct (generate_runs c tr)
    as [(m & st & H & Hs)|[(e & _ & H)|
        (fd & u & p1 & prompt & k & _ & _ & _ & _ & _ & _ & _ & H)]].
  - rewrite H in Hrun. injection Hrun as <- <-. cbn in Hst. lia.
  - rewrite H in Hrun. injection Hrun as <- <-. discriminate Hst.
  - destruct (generateContent services k "gemini-2.5-flash-image" _)
      as [e|response] eqn:Hg;
      rewrite H in Hrun; injection Hrun as <- <-; [discriminate Hst|].
    destruct (first_parts response) as [ps|] eqn:Hps; [|discriminate Hst].
    destruct (find_image ps) as [[d m]|] eqn:Hf; [|discriminate Hst].
    destruct (find_image_nonempty ps d m Hf) as [Hd Hm].
    exists d, m. repeat split; done.
Qed.


(** X9. A 200 answer of [POST /generate] is always the pair of a
    non-empty [generatedImage] and a non-empty [mimeType], and it is given
    only after exactly one call of the image model that resolved with
    image data. *)
Theorem generate_success_shape
    (c : Context) (tr : list effect) (resp : HonoResponse) (tr' : list effect) :
  generate services c tr = (inr resp, tr') ->
  res_status resp = 200 ->
  exists data mimeType apiKey parts response ps,
    body resp = Json (JObject [("generatedImage", JString data);
                               ("mimeType", JString mimeType)]) /\
    data <> EmptyString /\ mimeType <> EmptyString /\
    tr' = tr ++ [GeminiCall apiKey "gemini-2.5-flash-image" parts] /\
    generateContent services apiKey "gemini-2.5-flash-image" parts = inr response /\
    first_parts response = Some ps /\
    find_image ps = Some (data, mimeType).
Proof.
  intros Hrun Hst.
  destruct (generate_runs c tr)
    as [(m & st & H & Hs)|[(e & _ & H)|
        (fd & u & p1 & prompt & k & _ & _ & _ & _ & _ & _ & _ & H)]].
  - rewrite H in Hrun. injection Hrun as <- <-. cbn in Hst. lia.
  - rewrite H in Hrun. injection Hrun as <- <-. discriminate Hst.
  - destruct (generateContent services k "gemini-2.5-flash-image" _)
      as [e|response] eqn:Hg;
      rewrite H in Hrun; injection Hrun as <- <-; [discriminate Hst|].
    destruct (first_parts response) as [ps|] eqn:Hps; [|discriminate Hst].
    destruct (find_image ps) as [[d m]|] eqn:Hf; [|discriminate Hst].
    destruct (find_image_nonempty ps d m Hf) as [Hd Hm].
    eexists d, m, k, _, response, ps. repeat split; try done.
Qed.
End Generate.


Lemma generate_success_shape_witness :
  exists data mimeType,
    body (c_json_ok (JObject [("generatedImage", JString "iVBORw0KGgo=");
                              ("mimeType", JString "image/png")]))
    = Json (JObject [("generatedImage", JString data);
                     ("mimeType", JString mimeType)]) /\
    data <> EmptyString /\ mimeType <> EmptyString.
Proof.
  destruct (generate_success_shape studio visualize_request [] _ _ eq_refl eq_refl)
    as (d & m & _ & _ & _ & _ & H1 & H2 & H3 & _).
  exists d, m. split; [exact H1|]. split; [exact H2|exact H3].
Defined.

Section Analyze.
Variable services : Services.
Variable JSON_parse : string -> js_error + json.

Lemma object_json_named (obj : LocalizedObject) : has_text "name" (object_json obj).
Proof.
  eexists. split; [reflexivity|].
  by apply option_string_or_nonempty.
Qed.

Lemma label_json_described (label : LabelAnnotation) :
  has_text "description" (label_json label).
Proof.
  eexists. split; [reflexivity|].
  by apply option_string_or_nonempty.
Qed.

(** The ways [POST /analyze] runs: a local answer with no effect, a
    form or a credentials text that cannot be read, or one call of the
    vision service. *)
Lemma analyze_runs (c : Context) (tr : list effect) :
  (exists message st,
      analyze services JSON_parse c tr = (inr (c_json (error_body message) st), tr) /\
      (st = 400 \/ st = 500)) \/
  (exists e,
      analyze services JSON_parse c tr
      = (inr (c_json (JObject [("error", JString "Failed to analyze image");
                               ("details", JString (message_of e))]) 500),
         tr ++ [ConsoleErrorLog "Vision API error:" e])) \/
  (exists formData imageFile credentialsJson credentials,
      req_formData c = inr formData /\
      get formData "image" = Some (FFile imageFile) /\
      GOOGLE_CREDENTIALS (env c) = Some credentialsJson /\
      credentialsJson <> EmptyString /\
      JSON_parse credentialsJson = inr credentials /\
      match annotateImage services credentials (toString_base64 imageFile) with
      | inl e =>
          analyze services JSON_parse c tr
          = (inr (c_json (JObject [("error", JString "Failed to analyze image");
                                   ("details", JString (message_of e))]) 500),
             tr ++ [VisionCall credentials (toString_base64 imageFile);
                    ConsoleErrorLog "Vision API error:" e])
      | inr result =>
          analyze services JSON_parse c tr
          = (inr (c_json_ok
                    (JObject
                       [("objects",
                         JArray (object_json <$>
                                 default [] (localizedObjectAnnotations result)));
                        ("labels",
                         JArray (label_json <$>
                                 default [] (labelAnnotations result)))])),
             tr ++ [VisionCall credentials (toString_base64 imageFile)])
      end).
Proof.
  unfold analyze, try_catch, analyze_try, analyze_catch, bind, await, emit, ret.
  destruct (req_formData c) as [e|fd] eqn:Hfd; [right; left; by eauto|].
  destruct (get fd "image") as [[f|?]|] eqn:Hf; [|left; by eauto 6..].
  destruct (GOOGLE_CREDENTIALS (env c)) as [cj|] eqn:Hc; [|left; by eauto 6].
  destruct (String.eqb cj EmptyString) eqn:Ec; [left; by eauto 6|].
  apply String.eqb_neq in Ec.
  destruct (JSON_parse cj) as [e|credentials] eqn:Hparse; [right; left; by eauto|].
  right; right. exists fd, f, cj, credentials.
  repeat (split; [done|]).
  destruct (annotateImage services credentials (toString_base64 f)) as [e|result].
  - rewrite <- app_assoc. reflexivity.
  - reflexivity.
Qed.

(** X11. A 200 answer of [POST /analyze] lists one object for each
    localized object the vision service returned and one label for each
    label annotation, in the same order (a missing list counts as empty);
    every object has a non-empty [name] and every label a non-empty
    [description], ["Unknown"] standing in for a missing or empty one. *)
Theorem analyze_success_shape
    (c : Context) (tr : list effect) (resp : HonoResponse) (tr' : list effect) :
  analyze services JSON_parse c tr = (inr resp, tr') ->
  res_status resp = 200 ->
  exists credentials content result objects labels,
    annotateImage services credentials content = inr result /\
    body resp = Json (JObject [("objects", JArray objects);
                               ("labels", JArray labels)]) /\
    objects = object_json <$> default [] (localizedObjectAnnotations result) /\
    labels = label_json <$> default [] (labelAnnotations result) /\
    length objects = length (default [] (localizedObjectAnnotations result)) /\
    length labels = length (default [] (labelAnnotations result)) /\
    Forall (has_text "name") objects /\
    Forall (has_text "description") labels.
Proof.
  intros Hrun Hst.
  destruct (analyze_runs c tr)
    as [(m & st & H & Hs)|[(e & H)|
        (fd & f & cj & credentials & _ & _ & _ & _ & _ & H)]].
  - rewrite H in Hrun. injection Hrun as <- <-. cbn in Hst. lia.
  - rewrite H in Hrun. injection Hrun as <- <-. discriminate Hst.
  - destruct (annotateImage services credentials (toString_base64 f))
      as [e|result] eqn:Ha;
      rewrite H in Hrun; injection Hrun as <- <-; [discriminate Hst|].
    eexists credentials, _, result, _, _.
    split; [exact Ha|]. split; [reflexivity|].
    split; [reflexivity|]. split; [reflexivity|].
    rewrite !length_fmap. split; [reflexivity|]. split; [reflexivity|].
    split; apply Forall_fmap, Forall_true;
      [apply object_json_named|apply label_json_described].
Qed.

(** X12. [POST /analyze] calls the vision service at most once for a
    request, and only with credentials that [JSON.parse] read from a
    non-empty [GOOGLE_CREDENTIALS] binding and with the base64 text of the
    uploaded [image] file: with the binding missing or empty, or with a
    text that does not parse, the service is not called. *)
Theorem analyze_calls_vision_once
    (c : Context) (tr : list effect) (resp : HonoResponse) (tr' : list effect) :
  analyze services JSON_parse c tr = (inr resp, tr') ->
  exists new,
    tr' = tr ++ new /\
    (length (List.filter is_vision_call new) <= 1)%nat /\
    forall credentials content,
      VisionCall credentials content ∈ new ->
      exists formData imageFile credentialsJson,
        req_formData c = inr formData /\
        get formData "image" = Some (FFile imageFile) /\
        GOOGLE_CREDENTIALS (env c) = Some credentialsJson /\
        credentialsJson <> EmptyString /\
        JSON_parse credentialsJson = inr credentials /\
        content = toString_base64 imageFile.
Proof.
  intros Hrun.
  destruct (analyze_runs c tr)
    as [(m & st & H & _)|[(e & H)|
        (fd & f & cj & credentials & Hfd & Hf & Hc & Hne & Hp & H)]].
  - rewrite H in Hrun. injection Hrun as <- <-.
    exists []. rewrite app_nil_r.
    split; [done|]. split; [cbn; lia|].
    intros ?? Hin. by apply elem_of_nil in Hin.
  - rewrite H in Hrun. injection Hrun as <- <-.
    eexists. split; [reflexivity|]. split; [cbn; lia|].
    intros ?? Hin. apply elem_of_cons in Hin as [Hin|Hin]; [discriminate|].
    by apply elem_of_nil in Hin.
  - destruct (annotateImage services credentials (toString_base64 f)) as [e|result];
      rewrite H in Hrun; injection Hrun as <- <-;
      (eexists; split; [reflexivity|]); (split; [cbn; lia|]);
      intros cr ct Hin;
      (apply elem_of_cons in Hin as [Hin|Hin];
       [injection Hin as -> ->; by eauto 10|]);
      try (apply elem_of_cons in Hin as [Hin|Hin]; [discriminate|]);
      by apply elem_of_nil in Hin.
Qed.
End Analyze.

Lemma analyze_success_shape_witness :
  exists objects labels,
    (analyze studio parse_any analyze_request []).1
    = inr (c_json_ok (JObject [("objects", JArray objects);
                               ("labels", JArray labels)])) /\
    Forall (has_text "name") objects /\
    Forall (has_text "description") labels.
Proof.
  destruct (analyze_success_shape studio parse_any analyze_request [] _ _
              eq_refl eq_refl)
    as (cr & ct & r & objects & labels & _ & Hb & _ & _ & _ & _ & H1 & H2).
  cbn in Hb. injection Hb as <- <-.
  eexists _, _. split; [reflexivity|]. split; [exact H1|exact H2].
Defined.

Lemma analyze_calls_vision_once_witness :
  exists new,
    (analyze studio parse_any analyze_request []).2 = [] ++ new /\
    (length (List.filter is_vision_call new) <= 1)%nat.
Proof.
  destruct (analyze_calls_vision_once studio parse_any analyze_request [] _ _ eq_refl)
    as (new & H1 & H2 & _).
  exists new. split; [exact H1|exact H2].
Defined.

(** The route table of the later application, spelled out. *)
Lemma app_routes (services : Services) :
  app services =
  [mkRoute "GET" "/api/products/"
     (fun _ => ret (c_json_ok (message_body "So many products!")));
   mkRoute "GET" "/api/discovery/"
     (fun _ => ret (c_json_ok (message_body "Lets discover!")));
   mkRoute "GET" "/api/chat/"
     (fun _ => ret (c_json_ok (message_body "Lets chat!")));
   mkRoute "POST" "/api/nano-banana/generate" (generate services);
   mkRoute "GET" "/api/" api_root].
Proof. reflexivity. Qed.







End WorkerMore.

(** * The frontend against the worker *)

Module NetworkFacts.
Import Frontend Worker Network.

Section Wire.
Variable JSON_stringify : json -> string.
Variable bindings : Env.
Variable services : Services.

Local Abbreviation served := (worker_fetch JSON_stringify bindings (app services)).
Local Abbreviation served_initial := (worker_fetch JSON_stringify bindings app_initial).

(** X15. Against either version of the worker, the four JSON calls of
    [api] resolve with the documents of the routes they name: the
    endpoints of the client, trailing slashes included, are exactly paths
    the worker registers for [GET]. *)
Theorem api_calls_resolve :
  main served = Resolved (JObject [("name", JString "Goto Demo API")]) /\
  Frontend.products served = Resolved (message_body "So many products!") /\
  Frontend.discovery served = Resolved (message_body "Lets discover!") /\
  Frontend.chat served = Resolved (message_body "Lets chat!") /\
  main served_initial = Resolved (JObject [("name", JString "Goto Demo API")]) /\
  Frontend.products served_initial = Resolved (message_body "So many products!") /\
  Frontend.discovery served_initial = Resolved (message_body "Lets discover!") /\
  Frontend.chat served_initial = Resolved (message_body "Lets chat!").
Proof. repeat split; reflexivity. Qed.

(** X16. [api.analyzeImage] can never succeed against the worker: the
    vision route is not mounted, so every call, whatever the file, the
    bindings and the services, is answered with the default 404 and ends
    in an [ApiError] of status 404. *)
Theorem analyzeImage_is_not_served (file : File) :
  analyzeImage served file = Rejected (ApiError 404 "404 Not Found") /\
  analyzeImage served_initial file = Rejected (ApiError 404 "404 Not Found").
Proof. split; reflexivity. Qed.

(** What the worker does with the call of [generateImage]. *)
Lemma served_generate (init : RequestInit) :
  call_method init = "POST" ->
  served (API_BASE +:+ "/nano-banana/generate") init =
  match generate services {| req_formData := sent_form init; env := bindings |} [] with
  | (inr r, _) => Responded (to_response JSON_stringify r)
  | (inl e, _) => NetworkFailure e
  end.
Proof.
  intros Hm. unfold worker_fetch, hono_fetch. rewrite Hm.
  rewrite WorkerMore.app_routes.
  change (List.find _ _)
    with (Some (mkRoute "POST" "/api/nano-banana/generate" (generate services))).
  cbn [route_handler]. unfold try_catch.
  destruct (generate services _ []) as [[e|r] tr'] eqn:Hg; [|reflexivity].
  destruct (WorkerFacts.generate_answers services
              {| req_formData := sent_form init; env := bindings |} [])
    as (resp & t & H & _).
  rewrite H in Hg. discriminate Hg.
Qed.

(** X17. With no product image, [api.generateImage] sends the text
    [undefined] as [productImage1], and the worker turns the request down
    before looking at the prompt or the key: the call ends in an
    [ApiError] of status 400 whose message is the JSON text of
    [{error: "At least one product image is required"}]. *)
Theorem generateImage_without_product (userImage : File) (prompt : string) :
  get (generateImage_form userImage [] prompt) "productImage1"
  = Some (FString "undefined") /\
  generateImage served userImage [] prompt
  = Rejected (ApiError 400
                (JSON_stringify (error_body "At least one product image is required"))).
Proof.
  split; [reflexivity|].
  unfold generateImage, generateImage_call.
  rewrite served_generate by reflexivity. reflexivity.
Qed.

(** X18. Whenever [api.generateImage] resolves against the worker, the
    result is the document the frontend builds its data URL from: an
    object with a non-empty [generatedImage] and a non-empty [mimeType]
    string. *)
Theorem generateImage_resolves_with_image
    (userImage : File) (productImages : list File) (prompt : string) (v : json) :
  generateImage served userImage productImages prompt = Resolved v ->
  exists data mimeType,
    v = JObject [("generatedImage", JString data); ("mimeType", JString mimeType)] /\
    data <> EmptyString /\ mimeType <> EmptyString.
Proof.
  unfold generateImage, generateImage_call.
  rewrite served_generate by reflexivity.
  destruct (generate services _ []) as [[e|r] tr'] eqn:Hg; [discriminate|].
  destruct (res_status r =? 200) eqn:Hst.
  - apply Z.eqb_eq in Hst.
    destruct (WorkerMore.generate_ok_body services _ _ _ _ Hg Hst)
      as (d & m & Hb & Hd & Hm).
    unfold ok, to_response. cbn [status text json_body]. rewrite Hst, Hb. cbn.
    intros H. injection H as <-. eauto.
  - apply Z.eqb_neq in Hst.
    destruct (WorkerMore.generate_runs services
                {| req_formData := sent_form
                     {| init_method := Present (Some "POST");
                        init_headers := Absent;
                        init_body := Present (Some (BodyForm
                          (generateImage_form userImage productImages prompt))) |};
                   env := bindings |} [])
      as [(m & st & H & Hs)|[(e & _ & H)|
          (fd & u & p1 & pr & k & _ & _ & _ & _ & _ & _ & _ & H)]].
    + rewrite H in Hg. injection Hg as <- <-.
      unfold ok, to_response. cbn [status res_status c_json].
      destruct Hs as [-> | ->]; discriminate.
    + rewrite H in Hg. injection Hg as <- <-. discriminate.
    + destruct (generateContent services k "gemini-2.5-flash-image" _) as [e|response];
        rewrite H in Hg; injection Hg as <- <-; [discriminate|].
      destruct (first_parts response) as [ps|]; [|discriminate].
      destruct (find_image ps) as [[d m]|]; [|discriminate].
      cbn in Hst. lia.
Qed.
End Wire.

Lemma generateImage_resolves_with_image_witness :
  exists data mimeType,
    JObject [("generatedImage", JString "iVBORw0KGgo="); ("mimeType", JString "image/png")]
    = JObject [("generatedImage", JString data); ("mimeType", JString mimeType)] /\
    data <> EmptyString /\ mimeType <> EmptyString.
Proof.
  exact (generateImage_resolves_with_image (fun _ => EmptyString)
           Observe.configured Observe.studio
           selectedFile [selectedFile] "Add white blinds" _ eq_refl).
Defined.

(** X19. [generateImage] posts at most two product images: the third
    and later elements of [productImages] are never read, so the form is
    the one for the first two. *)
Theorem generateImage_form_takes_two
    (userImage : File) (productImages : list File) (prompt : string) :
  generateImage_form userImage productImages prompt
  = generateImage_form userImage (take 2 productImages) prompt /\
  (length (generateImage_form userImage productImages prompt) <= 4)%nat.
Proof.
  destruct productImages as [|f0 [|f1 rest]]; split; cbn; try reflexivity; lia.
Qed.

(** X20. Options without a [headers] key reach [fetch] with their method
    and body untouched, with the default
    [Content-Type: application/json] as their only header, and with the
    URL [/api] followed by the endpoint. *)
Theorem request_passes_options_through (endpoint : string) (o : RequestInit) :
  init_headers o = Absent ->
  request_call endpoint (Some o)
  = (API_BASE +:+ endpoint,
     {| init_method := init_method o;
        init_headers := Present (Some {[ "Content-Type" := "application/json" ]});
        init_body := init_body o |}).
Proof.
  intros H. unfold request_call, options_headers, spread_init. rewrite H. cbn.
  destruct (init_method o), (init_body o); reflexivity.
Qed.

Lemma request_passes_options_through_witness :
  request_call "/products/configure" (Some Observe.submitConfiguration_options)
  = (API_BASE +:+ "/products/configure",
     {| init_method := Present (Some "POST");
        init_headers := Present (Some {[ "Content-Type" := "application/json" ]});
        init_body := Present (Some (BodyText "{}")) |}).
Proof.
  exact (request_passes_options_through "/products/configure"
           Observe.submitConfiguration_options eq_refl).
Defined.

(** X21. The message [ProductList] shows follows the class of the
    error, not its cause: a non-2xx answer gives [No products found] when
    its status is 404 and [Failed to load] otherwise; a 2xx answer with a
    JSON body gives no message; and a 2xx answer whose body is not JSON is
    reported as [Network error], like a connection that failed. *)
Theorem ProductList_error_cases (fetch : string -> RequestInit -> fetch_outcome) :
  (forall res,
      fetch "/api/products/" (request_call "/products/" None).2 = Responded res ->
      ok res = false ->
      ProductList_error fetch
      = Some (if status res =? 404 then "No products found" else "Failed to load")) /\
  (forall res v,
      fetch "/api/products/" (request_call "/products/" None).2 = Responded res ->
      ok res = true -> json_body res = inr v ->
      ProductList_error fetch = None) /\
  (forall res message,
      fetch "/api/products/" (request_call "/products/" None).2 = Responded res ->
      ok res = true -> json_body res = inl (SyntaxError message) ->
      ProductList_error fetch = Some "Network error") /\
  (forall message,
      fetch "/api/products/" (request_call "/products/" None).2
      = NetworkFailure (TypeError message) ->
      ProductList_error fetch = Some "Network error").
Proof.
  unfold ProductList_error, Frontend.products, request.
  cbn [request_call fst snd].
  change (API_BASE +:+ "/products/") with "/api/products/".
  split; [|split; [|split]].
  - intros res -> ->. reflexivity.
  - intros res v -> -> ->. reflexivity.
  - intros res m -> -> ->. reflexivity.
  - intros m ->. reflexivity.
Qed.

Lemma ProductList_error_cases_witness :
  ProductList_error fetch_404 = Some "No products found".
Proof.
  exact (proj1 (ProductList_error_cases fetch_404) _ eq_refl eq_refl).
Defined.

End NetworkFacts.

Module UIFacts.
Import UI.

Section Handlers.
Variable createObjectURL : File -> string.
Variable ToString : option json -> string.

Local Abbreviation step := (UI.step createObjectURL ToString).
Local Abbreviation run := (UI.run createObjectURL ToString).

Lemma initial_consistent : consistent initial.
Proof.
  split; [reflexivity|]. split; [by left|]. split; [discriminate|constructor].
Qed.

Lemma step_consistent (a a' : App) (ev : event) :
  consistent a -> step a ev = Some a' -> consistent a'.
Proof.
  intros (Hp & Hd & Hs & Hc) Hstep.
  destruct a as [s cs n]. cbn [state calls pending] in *.
  destruct ev as [files|value|value| | |result]; cbn in Hstep.
  - injection Hstep as <-. cbn [state calls pending].
    unfold handleFileSelect. destruct (files !! 0%nat) as [file|].
    + split; [exact Hp|]. split; [by left|]. split; [discriminate|exact Hc].
    + split; [exact Hp|]. split; [exact Hd|]. split; [exact Hs|exact Hc].
  - injection Hstep as <-. split; [exact Hp|]. split; [exact Hd|]. split; [exact Hs|exact Hc].
  - injection Hstep as <-. split; [exact Hp|]. split; [exact Hd|]. split; [exact Hs|exact Hc].
  - destruct (selectedFile s) as [file|] eqn:Hf; [|discriminate].
    destruct (loading s) eqn:Hl; [discriminate|].
    unfold handleVisualize_start in Hstep. rewrite Hf in Hstep.
    injection Hstep as <-. cbn [state calls pending loading].
    split; [by rewrite Hp|]. split; [exact Hd|]. split; [exact Hs|].
    apply Forall_app. split; [exact Hc|].
    constructor; [|constructor].
    split; [reflexivity|]. by exists (color s), (productType s).
  - destruct (nonempty (imageUrl s) && nonempty (generatedImageUrl s)) eqn:Hg;
      [|discriminate].
    injection Hstep as <-. cbn [state calls pending loading].
    split; [exact Hp|]. split; [exact Hd|]. split; [|exact Hc].
    intros _. cbn [toggle generatedImageUrl].
    apply andb_prop in Hg as [_ Hg].
    unfold nonempty in Hg. by apply negb_true_iff, String.eqb_neq in Hg.
  - destruct n as [|n]; [discriminate|]. injection Hstep as <-.
    cbn [state calls pending].
    destruct (loading s) eqn:Hl; [|discriminate].
    injection Hp as ->.
    unfold handleVisualize_settle.
    destruct result as [v|e]; [destruct (dataUrl_of ToString v) as [e|url] eqn:Hu|];
      cbn [showOriginal generatedImageUrl loading];
      (split; [reflexivity|]); try (split; [exact Hd|]; split; [exact Hs|exact Hc]).
    unfold dataUrl_of in Hu.
    destruct (get_prop v "mimeType") as [e|m]; [discriminate|].
    destruct (get_prop v "generatedImage") as [e|g]; [discriminate|].
    injection Hu as <-.
    split; [right; by eexists|]. split; [discriminate|exact Hc].
Qed.

Lemma run_consistent (events : list event) (a a' : App) :
  consistent a -> run a events = Some a' -> consistent a'.
Proof.
  revert a. induction events as [|ev events IH]; intros a Ha Hrun; cbn in Hrun.
  - by injection Hrun as <-.
  - destruct (step a ev) as [a1|] eqn:Hstep; [|discriminate].
    exact (IH a1 (step_consistent a a1 ev Ha Hstep) Hrun).
Qed.

Lemma reachable_consistent (events : list event) (a : App) :
  run initial events = Some a -> consistent a.
Proof. exact (run_consistent events initial a initial_consistent). Qed.

(** X22. The visualizer never has two generations in flight: in every
    state a session can reach, at most one call of [api.generateImage] is
    pending, and [loading] is true exactly while one is. *)
Theorem one_generation_at_a_time (events : list event) (a : App) :
  run initial events = Some a ->
  (pending a <= 1)%nat /\ (loading (state a) = true <-> pending a = 1%nat).
Proof.
  intros Hrun. destruct (reachable_consistent events a Hrun) as (Hp & _).
  rewrite Hp. destruct (loading (state a)).
  - split; [lia|]. split; reflexivity.
  - split; [lia|]. split; discriminate.
Qed.


(** X24. Choosing another file does not cancel a pending generation:
    when its result arrives afterwards, the page shows the image generated
    for the earlier file although the new file is the selected one, and no
    call was made for the new file. *)
Theorem late_result_replaces_new_preview
    (events : list event) (a : App) (file : File) (result : json) (url : string) :
  run initial events = Some a ->
  loading (state a) = true ->
  dataUrl_of ToString result = inr url ->
  exists a',
    run a [FileChosen [file]; Settled (Resolved result)] = Some a' /\
    selectedFile (state a') = Some file /\
    imageUrl (state a') = createObjectURL file /\
    shown_src (state a') = url /\
    calls a' = calls a /\
    pending a' = 0%nat.
Proof.
  intros Hrun Hl Hu. destruct (reachable_consistent events a Hrun) as (Hp & _).
  rewrite Hl in Hp. destruct a as [s cs n]. cbn [state calls pending] in *. subst n.
  eexists. split.
  - cbn [UI.run UI.step state calls pending]. unfold handleVisualize_settle.
    rewrite Hu. reflexivity.
  - cbn. repeat split; reflexivity.
Qed.
End Handlers.

Lemma one_generation_at_a_time_witness :
  (pending Observe.visualizing <= 1)%nat /\
  (loading (state Observe.visualizing) = true <-> pending Observe.visualizing = 1%nat).
Proof.
  exact (one_generation_at_a_time Observe.blob_url Observe.hole
           Observe.session Observe.visualizing eq_refl).
Defined.


Lemma late_result_replaces_new_preview_witness :
  exists a',
    UI.run Observe.blob_url Observe.hole Observe.visualizing
      [FileChosen [mkFile "kitchen.jpg" "image/jpeg" []];
       Settled (Resolved Observe.answered)] = Some a' /\
    selectedFile (state a') = Some (mkFile "kitchen.jpg" "image/jpeg" []) /\
    imageUrl (state a') = Observe.blob_url (mkFile "kitchen.jpg" "image/jpeg" []) /\
    shown_src (state a') = "data:image/png;base64,iVBORw0KGgo=" /\
    calls a' = calls Observe.visualizing /\
    pending a' = 0%nat.
Proof.
  exact (late_result_replaces_new_preview Observe.blob_url Observe.hole
           Observe.session Observe.visualizing
           (mkFile "kitchen.jpg" "image/jpeg" []) Observe.answered _
           eq_refl eq_refl eq_refl).
Defined.

Section Wire.
Variable createObjectURL : File -> string.
Variable ToString : option json -> string.
Variable JSON_stringify : json -> string.
Variable bindings : Worker.Env.
Variable services : Worker.Services.

Local Abbreviation served :=
  (Network.worker_fetch JSON_stringify bindings (Worker.app services)).

Lemma prompt_of_nonempty (color productType : string) :
  String.eqb (prompt_of color productType) EmptyString = false.
Proof. reflexivity. Qed.

(** X25. Every call of [api.generateImage] the visualizer makes passes
    the worker's validation: its form has exactly the parts [userImage],
    [productImage1] and [prompt], and whatever the bindings and the image
    model do, the call never ends in an [ApiError] of status 400. *)
Theorem app_calls_pass_validation (events : list event) (a : App) :
  UI.run createObjectURL ToString initial events = Some a ->
  Forall (fun c =>
            Frontend.part_names
              (Frontend.generateImage_form (call_userImage c) (call_productImages c)
                 (call_prompt c))
            = ["userImage"; "productImage1"; "prompt"] /\
            forall message,
              Frontend.generateImage served (call_userImage c) (call_productImages c)
                (call_prompt c)
              <> Rejected (ApiError 400 message))
         (calls a).
Proof.
  intros Hrun.
  destruct (reachable_consistent createObjectURL ToString events a Hrun)
    as (_ & _ & _ & Hc).
  eapply Forall_impl; [exact Hc|]. clear.
  intros [u ps p] [Hps (col & pt & Hp)]. cbn [call_userImage call_productImages call_prompt] in *.
  subst ps p. split; [reflexivity|]. intros message.
  unfold Frontend.generateImage, Frontend.generateImage_call.
  rewrite NetworkFacts.served_generate by reflexivity.
  unfold Worker.generate, Worker.try_catch, Worker.generate_try.
  cbn [Network.sent_form Frontend.init_body Worker.req_formData Worker.env
       Worker.await Worker.bind].
  change (get (Frontend.generateImage_form u [u] (prompt_of col pt)) "userImage")
    with (Some (FFile u)).
  change (get (Frontend.generateImage_form u [u] (prompt_of col pt)) "productImage1")
    with (Some (FFile u)).
  change (get (Frontend.generateImage_form u [u] (prompt_of col pt)) "productImage2")
    with (@None FormDataEntryValue).
  change (get (Frontend.generateImage_form u [u] (prompt_of col pt)) "prompt")
    with (Some (FString (prompt_of col pt))).
  cbv beta iota zeta. rewrite prompt_of_nonempty.
  destruct (Worker.GEMINI_API_KEY bindings) as [k|]; [|by cbn].
  destruct (String.eqb k EmptyString); [by cbn|].
  unfold Worker.bind, Worker.emit, Worker.await, Worker.generate_catch.
  destruct (Worker.generateContent services k _ _) as [e|response]; [by cbn|].
  destruct (Worker.first_parts response) as [parts|]; [|by cbn].
  destruct (Worker.find_image parts) as [[d m]|]; by cbn.
Qed.
End Wire.

Lemma app_calls_pass_validation_witness :
  Forall (fun c =>
            Frontend.part_names
              (Frontend.generateImage_form (call_userImage c) (call_productImages c)
                 (call_prompt c))
            = ["userImage"; "productImage1"; "prompt"] /\
            forall message,
              Frontend.generateImage
                (Network.worker_fetch (fun _ => EmptyString) Observe.configured
                   (Worker.app Observe.studio))
                (call_userImage c) (call_productImages c) (call_prompt c)
              <> Rejected (ApiError 400 message))
         (calls Observe.visualizing).
Proof.
  exact (app_calls_pass_validation Observe.blob_url Observe.hole
           (fun _ => EmptyString) Observe.configured Observe.studio
           Observe.session Observe.visualizing eq_refl).
Defined.

End UIFacts.
